(** * The leader of the Figma MCP bridge: request validation and the HTTP front door

    A shallow embedding of [server/src/schema.ts] (the per-tool validation
    gate, [validateRpc]) and of [server/src/leader.ts] (the [Leader] class:
    [start], the upgrade handler, [handleRPC], [sendJSON]).

    The code runs on a JavaScript engine, so the embedding starts with the
    part of the language the two files rely on: dynamically typed values,
    abrupt completion ([throw]), property lookup through the prototype chain
    for the [in] operator, object spread, truthiness and [JSON.stringify].
    Then come regular expressions, the fragment of the zod library the
    schemas are built from, and finally the two source files themselves. *)

From Stdlib Require Import String Ascii List Bool NArith Lia DecimalString.
Import ListNotations.
Local Open Scope string_scope.
Local Open Scope list_scope.

#[local] Set Warnings "-register-all".


(* ================================================================= *)
(** ** JavaScript values *)

Module JS.

(** What [JSON.parse] can produce, plus [undefined].  The code never
    computes with numbers, so a number is kept as its rendering, the text
    [Number.prototype.toString] gives for it (["2"], ["0.5"]; zero is
    ["0"]); the numbers meant are the finite ones.  The properties of an
    object are kept as the sequence of their definitions, in order: a later
    definition of a key overrides an earlier one, as in an object literal
    [{ a: 1, ...rest }] or in a JSON text with a repeated key.  A string is
    the sequence of its bytes; the characters the code tells apart (the
    decimal digits and the colon) are single bytes that occur in no other
    character's encoding. *)
Inductive Value : Type :=
| VUndefined
| VNull
| VBool (b : bool)
| VNumber (rendering : string)
| VString (s : string)
| VArray (elems : list Value)
| VObject (props : list (string * Value)).

(** What a [throw] (or a rejected promise) carries: an instance of [Error]
    with its [name] and [message], or any other value. *)
Inductive Thrown : Type :=
| ErrorObject (name message : string)
| ThrownValue (v : Value).

Definition TypeError (message : string) : Thrown := ErrorObject "TypeError" message.
Definition SyntaxError (message : string) : Thrown := ErrorObject "SyntaxError" message.
Definition new_Error (message : string) : Thrown := ErrorObject "Error" message.

(** The outcome of evaluating an expression or of awaiting a promise that
    settles: a value, or an exception. *)
Inductive Completion (A : Type) : Type :=
| Return (a : A)
| Throw (e : Thrown).
Arguments Return {A} a.
Arguments Throw {A} e.

Definition bind {A B : Type} (c : Completion A) (k : A -> Completion B) : Completion B :=
  match c with
  | Return a => k a
  | Throw e => Throw e
  end.

Notation "x <- c ;; k" := (bind c (fun x => k))
  (at level 61, c at next level, right associativity).

(** [ToBoolean]: the falsy values are [undefined], [null], [false], zero,
    [NaN] and the empty string. *)
Definition ToBoolean (v : Value) : bool :=
  match v with
  | VUndefined | VNull => false
  | VBool b => b
  | VNumber r => negb ((r =? "0") || (r =? "NaN"))
  | VString s => negb (s =? "")
  | VArray _ | VObject _ => true
  end.

Fixpoint join (sep : string) (parts : list string) : string :=
  match parts with
  | [] => ""
  | [p] => p
  | p :: rest => p ++ sep ++ join sep rest
  end.

Definition has_own {A : Type} (k : string) (defs : list (string * A)) : bool :=
  existsb (fun d => fst d =? k) defs.

(** [ToString], which is also [String(v)] and, for the values here,
    [ToPropertyKey].  An array is the comma-separated rendering of its
    elements ([undefined] and [null] rendered empty).  A plain object is
    ["[object Object]"], unless it has an own property [toString]: that
    property shadows [Object.prototype.toString], it is not callable (no
    value of this model is), and the conversion ends in a [TypeError]. *)
Fixpoint ToString (v : Value) : Completion string :=
  match v with
  | VUndefined => Return "undefined"
  | VNull => Return "null"
  | VBool true => Return "true"
  | VBool false => Return "false"
  | VNumber r => Return r
  | VString s => Return s
  | VArray elems =>
      parts <- (fix each (l : list Value) : Completion (list string) :=
                  match l with
                  | [] => Return []
                  | e :: rest =>
                      p <- match e with
                           | VUndefined | VNull => Return ""
                           | _ => ToString e
                           end ;;
                      ps <- each rest ;;
                      Return (p :: ps)
                  end) elems ;;
      Return (join "," parts)
  | VObject props =>
      if has_own "toString" props
      then Throw (TypeError "Cannot convert object to primitive value")
      else Return "[object Object]"
  end.

Definition ToPropertyKey (v : Value) : Completion string := ToString v.

(** Lookup in a sequence of definitions: the last definition of [k] wins. *)
Fixpoint lookup {A : Type} (k : string) (defs : list (string * A)) : option A :=
  match defs with
  | [] => None
  | (k', a) :: rest =>
      match lookup k rest with
      | Some a' => Some a'
      | None => if k' =? k then Some a else None
      end
  end.

(** The own keys of an object, each once, in the order of first definition. *)
Fixpoint own_keys {A : Type} (defs : list (string * A)) (seen : list string) : list string :=
  match defs with
  | [] => []
  | (k, _) :: rest =>
      if existsb (String.eqb k) seen then own_keys rest seen
      else k :: own_keys rest (k :: seen)
  end.

(** Decimal rendering of an array index or of a port number. *)
Definition decimal (n : N) : string := NilEmpty.string_of_uint (N.to_uint n).

Fixpoint indexed {A : Type} (i : N) (l : list A) : list (string * A) :=
  match l with
  | [] => []
  | a :: rest => (decimal i, a) :: indexed (N.succ i) rest
  end.

Fixpoint chars (s : string) : list Value :=
  match s with
  | EmptyString => []
  | String c rest => VString (String c EmptyString) :: chars rest
  end.

(** The own enumerable properties that a spread [...v] copies: those of an
    object, the indexed elements of an array, the indexed characters of a
    string, and nothing for [undefined], [null], booleans and numbers. *)
Definition spread (v : Value) : list (string * Value) :=
  match v with
  | VObject props => props
  | VArray elems => indexed 0 elems
  | VString s => indexed 0 (chars s)
  | VUndefined | VNull | VBool _ | VNumber _ => []
  end.

(** [o[k]] for a plain object [o]. *)
Definition prop (k : string) (props : list (string * Value)) : Value :=
  match lookup k props with
  | Some v => v
  | None => VUndefined
  end.

(** [v.k] for a key [k] that no built-in prototype defines (the code only
    reads [tool], [nodeIds], [params], [error] and [data] this way):
    a [TypeError] on [undefined] and [null], the own property of an object,
    [undefined] on everything else. *)
Definition member (v : Value) (k : string) : Completion Value :=
  match v with
  | VUndefined =>
      Throw (TypeError ("Cannot read properties of undefined (reading '" ++ k ++ "')"))
  | VNull =>
      Throw (TypeError ("Cannot read properties of null (reading '" ++ k ++ "')"))
  | VObject props => Return (prop k props)
  | VBool _ | VNumber _ | VString _ | VArray _ => Return VUndefined
  end.

(** [v?.[0]]: [undefined] when [v] is [undefined] or [null], otherwise the
    element, character or property at index 0. *)
Definition optional_first (v : Value) : Value :=
  match v with
  | VUndefined | VNull => VUndefined
  | VArray elems => nth 0 elems VUndefined
  | VString s => nth 0 (chars s) VUndefined
  | VObject props => prop "0" props
  | VBool _ | VNumber _ => VUndefined
  end.

(** The property names every plain object inherits from [Object.prototype]. *)
Definition Object_prototype_keys : list string :=
  [ "constructor"; "__defineGetter__"; "__defineSetter__"; "hasOwnProperty";
    "__lookupGetter__"; "__lookupSetter__"; "isPrototypeOf";
    "propertyIsEnumerable"; "toString"; "valueOf"; "__proto__";
    "toLocaleString" ].

(** [k in o] for an object literal [o]: an own key, or one found on the
    prototype chain, which for a literal is [Object.prototype]. *)
Definition has_property {A : Type} (k : string) (o : list (string * A)) : bool :=
  has_own k o || existsb (String.eqb k) Object_prototype_keys.

(** The properties among [keys] whose last definition is a JSON document. *)
Fixpoint keep_defined (keys : list string) (defs : list (string * option Value))
  : list (string * Value) :=
  match keys with
  | [] => []
  | k :: rest =>
      match lookup k defs with
      | Some (Some j) => (k, j) :: keep_defined rest defs
      | _ => keep_defined rest defs
      end
  end.

(** [JSON.stringify], up to the concrete text: the JSON document that the
    produced text denotes, [None] where [JSON.stringify] gives [undefined].
    A property whose value is [undefined] is left out of an object; an
    [undefined] element of an array becomes [null].  (The order in which
    the text lists the keys of an object is not modelled.) *)
Fixpoint JSON_stringify (v : Value) : option Value :=
  match v with
  | VUndefined => None
  | VNull => Some VNull
  | VBool b => Some (VBool b)
  | VNumber r => Some (VNumber r)
  | VString s => Some (VString s)
  | VArray elems =>
      Some (VArray (map (fun e => match JSON_stringify e with
                                  | Some j => j
                                  | None => VNull
                                  end) elems))
  | VObject props =>
      Some (VObject (keep_defined (own_keys props [])
                       (map (fun d => (fst d, JSON_stringify (snd d))) props)))
  end.

(** A request body as [JSON.parse] sees it: the text of a JSON document,
    given by the value it parses to, or a text that is not JSON, on which
    [JSON.parse] throws a [SyntaxError]. *)
Inductive Body : Type :=
| JsonText (v : Value)
| NotJson (syntax_error : string).

Definition JSON_parse (body : Body) : Completion Value :=
  match body with
  | JsonText v => Return v
  | NotJson syntax_error => Throw (SyntaxError syntax_error)
  end.

(** The keys of a JSON document that is an object. *)
Definition keys_of (doc : option Value) : list string :=
  match doc with
  | Some (VObject props) => map fst props
  | _ => []
  end.

(** Induction on values, through the elements of arrays and the properties
    of objects. *)
Section ValueInduction.

Variable P : Value -> Prop.
Hypothesis P_undefined : P VUndefined.
Hypothesis P_null : P VNull.
Hypothesis P_bool : forall b, P (VBool b).
Hypothesis P_number : forall r, P (VNumber r).
Hypothesis P_string : forall s, P (VString s).
Hypothesis P_array : forall elems, Forall P elems -> P (VArray elems).
Hypothesis P_object :
  forall props, Forall (fun d => P (snd d)) props -> P (VObject props).

Fixpoint Value_nested_ind (v : Value) : P v :=
  match v with
  | VUndefined => P_undefined
  | VNull => P_null
  | VBool b => P_bool b
  | VNumber r => P_number r
  | VString s => P_string s
  | VArray elems =>
      P_array elems
        ((fix all (l : list Value) : Forall P l :=
            match l with
            | [] => Forall_nil P
            | e :: rest => Forall_cons e (Value_nested_ind e) (all rest)
            end) elems)
  | VObject props =>
      P_object props
        ((fix all (l : list (string * Value)) : Forall (fun d => P (snd d)) l :=
            match l with
            | [] => Forall_nil _
            | d :: rest => Forall_cons d (Value_nested_ind (snd d)) (all rest)
            end) props)
  end.

End ValueInduction.

End JS.
Export JS.

(* ================================================================= *)
(** ** Regular expressions *)

Module RegExp.

(** The syntax the node-id pattern needs: literals, the class [\d],
    sequence, alternative and repetition. *)
Inductive regexp : Type :=
| Void
| Eps
| Chr (c : ascii)
| Digit
| Cat (r1 r2 : regexp)
| Alt (r1 r2 : regexp)
| Star (r : regexp).

(** [r+] *)
Definition Plus (r : regexp) : regexp := Cat r (Star r).

(** [\d] is [[0-9]]. *)
Definition is_digit (c : ascii) : bool :=
  ((48 <=? N_of_ascii c) && (N_of_ascii c <=? 57))%N.

Fixpoint nullable (r : regexp) : bool :=
  match r with
  | Void => false
  | Eps => true
  | Chr _ => false
  | Digit => false
  | Cat r1 r2 => nullable r1 && nullable r2
  | Alt r1 r2 => nullable r1 || nullable r2
  | Star _ => true
  end.

(** What is left of [r] to match after the character [c]. *)
Fixpoint deriv (c : ascii) (r : regexp) : regexp :=
  match r with
  | Void => Void
  | Eps => Void
  | Chr c' => if Ascii.eqb c c' then Eps else Void
  | Digit => if is_digit c then Eps else Void
  | Cat r1 r2 =>
      if nullable r1 then Alt (Cat (deriv c r1) r2) (deriv c r2)
      else Cat (deriv c r1) r2
  | Alt r1 r2 => Alt (deriv c r1) (deriv c r2)
  | Star r1 => Cat (deriv c r1) (Star r1)
  end.

Fixpoint matches (r : regexp) (s : string) : bool :=
  match s with
  | EmptyString => nullable r
  | String c rest => matches (deriv c r) rest
  end.

(** A pattern [/^body$/] without flags: [^] and [$] anchor the match at
    both ends of the input, so [test] succeeds when the whole string
    matches [body]. *)
Record Pattern : Type := Anchored { body : regexp }.

Definition test (p : Pattern) (s : string) : bool := matches (body p) s.

(** The language of a regular expression. *)
Inductive Matches : regexp -> string -> Prop :=
| MEps : Matches Eps ""
| MChr c : Matches (Chr c) (String c "")
| MDigit c : is_digit c = true -> Matches Digit (String c "")
| MCat r1 r2 s1 s2 : Matches r1 s1 -> Matches r2 s2 -> Matches (Cat r1 r2) (s1 ++ s2)
| MAltL r1 r2 s : Matches r1 s -> Matches (Alt r1 r2) s
| MAltR r1 r2 s : Matches r2 s -> Matches (Alt r1 r2) s
| MStarNil r : Matches (Star r) ""
| MStarApp r s1 s2 : Matches r s1 -> Matches (Star r) s2 -> Matches (Star r) (s1 ++ s2).

(** A non-empty string of decimal digits. *)
Fixpoint all_digits (s : string) : bool :=
  match s with
  | EmptyString => true
  | String c rest => is_digit c && all_digits rest
  end.

End RegExp.
Export RegExp.

(* ================================================================= *)
(** ** The fragment of zod used by the schemas *)

Module Zod.

(** A schema: [z.string()] with its refinements (each a pattern and the
    message of its issue), [z.number()], [z.array(element)],
    [inner.optional()] and [z.object(shape)]. *)
Inductive ZodType : Type :=
| ZodString (checks : list (Pattern * string))
| ZodNumber
| ZodArray (element : ZodType)
| ZodOptional (inner : ZodType)
| ZodObject (shape : list (string * ZodType)).

(** The text zod puts in the issue it raises when a value has not the
    expected primitive kind.  It is zod's own and differs between zod's
    versions, so it is left abstract: it is given the expected kind and the
    value received. *)
Class ZodMessages : Type := { invalid_type_message : string -> Value -> string }.

Definition z_string : ZodType := ZodString [].
Definition z_number : ZodType := ZodNumber.
Definition z_array (element : ZodType) : ZodType := ZodArray element.
Definition z_object (shape : list (string * ZodType)) : ZodType := ZodObject shape.
Definition optional (t : ZodType) : ZodType := ZodOptional t.

(** [t.regex(pattern, message)] *)
Definition regex (t : ZodType) (pattern : Pattern) (message : string) : ZodType :=
  match t with
  | ZodString checks => ZodString (checks ++ [(pattern, message)])
  | _ => t
  end.

(** [t.describe(text)] attaches documentation and leaves validation as it is. *)
Definition describe (t : ZodType) (text : string) : ZodType := t.

(** The messages of the issues a value raises against a schema, in the order
    zod reports them: the fields of an object in the order of its shape, the
    elements of an array from first to last.  Keys of the value that the
    shape does not name are ignored. *)
Fixpoint issues {messages : ZodMessages} (t : ZodType) (v : Value) {struct t} : list string :=
  match t with
  | ZodString checks =>
      match v with
      | VString s =>
          flat_map (fun check => if test (fst check) s then [] else [snd check]) checks
      | _ => [invalid_type_message "string" v]
      end
  | ZodNumber =>
      match v with
      | VNumber _ => []
      | _ => [invalid_type_message "number" v]
      end
  | ZodArray element =>
      match v with
      | VArray elems => flat_map (issues element) elems
      | _ => [invalid_type_message "array" v]
      end
  | ZodOptional inner =>
      match v with
      | VUndefined => []
      | _ => issues inner v
      end
  | ZodObject shape =>
      match v with
      | VObject props =>
          (fix fields (sh : list (string * ZodType)) : list string :=
             match sh with
             | [] => []
             | (k, tk) :: rest => issues tk (prop k props) ++ fields rest
             end) shape
      | _ => [invalid_type_message "object" v]
      end
  end.

(** The result of [safeParse]: [success], or an [error] whose [issues] has
    at least one element. *)
Inductive SafeParseResult : Type :=
| Success
| Failure (first_issue : string) (other_issues : list string).

Definition safeParse {messages : ZodMessages} (t : ZodType) (v : Value) : SafeParseResult :=
  match issues t v with
  | [] => Success
  | i :: rest => Failure i rest
  end.

End Zod.
Export Zod.

(* ================================================================= *)
(** ** schema.ts *)

(** [/^\d+:\d+$/] *)
Definition node_id_pattern : Pattern :=
  Anchored (Cat (Plus Digit) (Cat (Chr ":") (Plus Digit))).

(** Figma node IDs use colon-separated format, e.g. "4029:12345". *)
Definition figmaNodeId : ZodType :=
  regex z_string node_id_pattern "Node ID must use colon format, e.g. '4029:12345'".

Definition toolInputSchemas : list (string * ZodType) :=
  [ ("get_node",
      z_object [ ("nodeId", describe figmaNodeId "The node ID to fetch") ]);
    ("get_design_context",
      z_object
        [ ("depth",
            describe (optional z_number)
              "How many levels deep to traverse the node tree (default 2)") ]);
    ("get_screenshot",
      z_object
        [ ("nodeIds",
            describe (optional (z_array figmaNodeId))
              "Optional list of node IDs to export (colon-separated format, e.g. '4029:12345' - never use hyphens). If empty, exports the current selection");
          ("format",
            describe (optional z_string)
              "Export format: PNG (default) or SVG or JPG or PDF");
          ("scale",
            describe (optional z_number)
              "Export scale for raster formats (default 2)") ]) ].

(** Maps the RPC wire format { tool, nodeIds?, params? } to each tool's
    expected input shape. *)
Definition rpcToArgs : list (string * (Value -> Value -> Value)) :=
  [ ("get_node",
      fun nodeIds _ => VObject [ ("nodeId", optional_first nodeIds) ]);
    ("get_design_context",
      fun _ params => VObject (spread params));
    ("get_screenshot",
      fun nodeIds params => VObject (("nodeIds", nodeIds) :: spread params)) ].

(** What happens when [name] is not a tool but a member inherited from
    [Object.prototype]: [toolInputSchemas[name]] is then a built-in without
    a [safeParse] method, and the call ends in a [TypeError] (the texts are
    V8's).  The argument [rpcToArgs[name](nodeIds, params)] is evaluated
    first, and the exception may already come out of it: [__proto__] is not
    a function, the accessor helpers want a function for [params], and the
    built-ins that take a property key convert [nodeIds] to one. *)
Definition inherited_member_failure (name : string) (nodeIds : Value) : Thrown :=
  let not_a_function :=
    TypeError "toolInputSchemas[name].safeParse is not a function" in
  if name =? "__proto__" then TypeError "rpcToArgs[name] is not a function"
  else if name =? "__defineGetter__"
  then TypeError "Object.prototype.__defineGetter__: Expecting function"
  else if name =? "__defineSetter__"
  then TypeError "Object.prototype.__defineSetter__: Expecting function"
  else if existsb (String.eqb name)
            [ "hasOwnProperty"; "propertyIsEnumerable";
              "__lookupGetter__"; "__lookupSetter__" ]
  then match ToPropertyKey nodeIds with
       | Throw e => e
       | Return _ => not_a_function
       end
  else not_a_function.

(** Validate an RPC request against the corresponding tool's input schema.
    Returns an error string on failure, null if valid or no schema exists
    for the tool.  ([None] is [null].) *)
Definition validateRpc {messages : ZodMessages} (tool nodeIds params : Value)
  : Completion (option string) :=
  name <- ToPropertyKey tool ;;
  if negb (has_property name toolInputSchemas) then Return None
  else
    match lookup name toolInputSchemas, lookup name rpcToArgs with
    | Some schema, Some toArgs =>
        match safeParse schema (toArgs nodeIds params) with
        | Success => Return None
        | Failure issue _ => Return (Some issue)
        end
    | _, _ => Throw (inherited_member_failure name nodeIds)
    end.

(* ================================================================= *)
(** ** leader.ts *)

(** A connection-upgrade request: the request target [req.url], the socket
    it arrived on and the first bytes already read. *)
Record UpgradeRequest : Type :=
  { upgrade_url : string; upgrade_socket : N; upgrade_head : string }.

(** The Bridge ([bridge.ts]) is not among the sources.  The leader uses it
    through three methods, taken here as an interface over the Bridge's own
    state: [sendWithParams] returns a promise, of which the model keeps the
    way it settles (fulfilled with a response, or rejected). *)
Class Bridge (St : Type) : Type :=
  { sendWithParams : Value -> Value -> Value -> St -> Completion Value * St;
    handleUpgrade : UpgradeRequest -> St -> St;
    close : St -> St }.

(** What a handler writes to the response: JSON text, given by the document
    it denotes, or plain text. *)
Inductive Payload : Type :=
| Json (doc : option Value)
| Text (s : string).

(** The calls a handler makes on the world around it, in order. *)
Inductive Effect : Type :=
| WriteHead (status : N) (headers : list (string * string))
| End (payload : Payload)
| BridgeSend (tool nodeIds params : Value)
| BridgeUpgrade (req : UpgradeRequest)
| BridgeClose
| SocketDestroy (socket : N)
| Listen (port : N)
| ServerClose
| ConsoleError (line : string).

Section Handlers.

Context {St : Type} {bridge : Bridge St} {messages : ZodMessages}.

(** A handler runs over the state of the Bridge, may throw, and leaves a
    trace of effects. *)
Definition M (A : Type) : Type := St -> Completion A * St * list Effect.

Definition ret {A : Type} (a : A) : M A := fun st => (Return a, st, []).

Definition mbind {A B : Type} (m : M A) (k : A -> M B) : M B :=
  fun st =>
    match m st with
    | (Return a, st1, t1) =>
        match k a st1 with
        | (r, st2, t2) => (r, st2, t1 ++ t2)
        end
    | (Throw e, st1, t1) => (Throw e, st1, t1)
    end.

Definition lift {A : Type} (c : Completion A) : M A := fun st => (c, st, []).

Definition emit (e : Effect) : M unit := fun st => (Return tt, st, [e]).

(** [try { body } catch (err) { handler(err) }] *)
Definition try_catch {A : Type} (body : M A) (handler : Thrown -> M A) : M A :=
  fun st =>
    match body st with
    | (Return a, st1, t1) => (Return a, st1, t1)
    | (Throw e, st1, t1) =>
        match handler e st1 with
        | (r, st2, t2) => (r, st2, t1 ++ t2)
        end
    end.

(** [await this.bridge.sendWithParams(tool, nodeIds, params)] *)
Definition await_sendWithParams (tool nodeIds params : Value) : M Value :=
  fun st =>
    match sendWithParams tool nodeIds params st with
    | (outcome, st1) => (outcome, st1, [BridgeSend tool nodeIds params])
    end.

Local Notation "x <-- m ;; k" := (mbind m (fun x => k))
  (at level 61, m at next level, right associativity).
Local Notation "m ;;; k" := (mbind m (fun _ => k))
  (at level 61, right associativity).

Definition sendJSON (status : N) (body : Value) : M unit :=
  emit (WriteHead status [("Content-Type", "application/json")]) ;;;
  emit (End (Json (JSON_stringify body))).

(** A [string | null] as a value. *)
Definition of_nullable (o : option string) : Value :=
  match o with
  | Some s => VString s
  | None => VNull
  end.

(** [err instanceof Error ? err.message : String(err)] *)
Definition message_of (err : Thrown) : Completion string :=
  match err with
  | ErrorObject _ message => Return message
  | ThrownValue v => ToString v
  end.

(** The handler [handleRPC] installs for the end of the request body, run
    on the body received. *)
Definition handleRPC (body : Body) : M unit :=
  try_catch
    (rpcReq <-- lift (JSON_parse body) ;;
     tool <-- lift (member rpcReq "tool") ;;
     nodeIds <-- lift (member rpcReq "nodeIds") ;;
     params <-- lift (member rpcReq "params") ;;
     validationError <-- lift (validateRpc tool nodeIds params) ;;
     if ToBoolean (of_nullable validationError)
     then sendJSON 400 (VObject [ ("error", of_nullable validationError) ])
     else
       resp <-- await_sendWithParams tool nodeIds params ;;
       error <-- lift (member resp "error") ;;
       if ToBoolean error
       then sendJSON 200 (VObject [ ("error", error) ])
       else
         data <-- lift (member resp "data") ;;
         sendJSON 200 (VObject [ ("data", data) ]))
    (fun err =>
       message <-- lift (message_of err) ;;
       sendJSON 200 (VObject [ ("error", VString message) ])).

(** The request listener given to [http.createServer]. *)
Definition onRequest (VERSION : string) (url method : string) (body : Body)
  : M unit :=
  if (url =? "/ping") && (method =? "GET") then
    emit (WriteHead 200 [("Content-Type", "application/json")]) ;;;
    emit (End (Json (JSON_stringify
                       (VObject [ ("status", VString "ok");
                                  ("version", VString VERSION) ]))))
  else if (url =? "/rpc") && (method =? "POST") then
    handleRPC body
  else
    emit (WriteHead 404 []) ;;;
    emit (End (Text "Not found")).


End Handlers.

(** The fields of a [Leader] other than the Bridge: the port it was
    constructed with, and the server once it listens ([None] is [null]). *)
Record Server : Type := HttpServer { bound_to : N }.

Record Leader : Type := { port : N; server : option Server }.

Definition new_Leader (port : N) : Leader := {| port := port; server := None |}.

(** A promise: pending, or settled for good. *)
Inductive Promise : Type :=
| Pending
| Fulfilled
| Rejected (reason : Thrown).

Definition resolve (p : Promise) : Promise :=
  match p with
  | Pending => Fulfilled
  | _ => p
  end.

Definition reject (reason : Thrown) (p : Promise) : Promise :=
  match p with
  | Pending => Rejected reason
  | _ => p
  end.

(** The events of the server that [start()] listens to: [error], carrying
    an exception with its [code], and [listening]. *)
Inductive ServerEvent : Type :=
| ErrorEvent (code message : string)
| ListeningEvent.

(** A start under way: the leader, the promise [start()] returned, whether
    the listener installed with [server.once("error", ...)] is still there,
    and the effects so far. *)
Record Startup : Type :=
  { leader : Leader;
    promise : Promise;
    error_listener : bool;
    trace : list Effect }.

(** [start()], up to its one call of [server.listen]. *)
Definition start (l : Leader) : Startup :=
  {| leader := l;
     promise := Pending;
     error_listener := true;
     trace := [ Listen (port l) ] |}.

(** What the listeners of [start()] do on an event of the server.  The
    [error] listener runs once; an [error] event that finds it gone is no
    longer the business of [start()]. *)
Definition on_server_event (ev : ServerEvent) (s : Startup) : Startup :=
  match ev with
  | ErrorEvent code message =>
      if error_listener s then
        {| leader := leader s;
           promise :=
             reject (if code =? "EADDRINUSE"
                     then new_Error ("Port " ++ decimal (port (leader s))
                                       ++ " already in use")
                     else ErrorObject "Error" message)
                    (promise s);
           error_listener := false;
           trace := trace s |}
      else s
  | ListeningEvent =>
      {| leader := {| port := port (leader s);
                      server := Some (HttpServer (port (leader s))) |};
         promise := resolve (promise s);
         error_listener := error_listener s;
         trace := trace s ++ [ ConsoleError ("Leader listening on :"
                                               ++ decimal (port (leader s))) ] |}
  end.

Definition run_server_events (events : list ServerEvent) (s : Startup) : Startup :=
  fold_left (fun s ev => on_server_event ev s) events s.

Definition is_Listen (e : Effect) : bool :=
  match e with
  | Listen _ => true
  | _ => false
  end.

(** [stop()] *)
Definition stop {St : Type} {bridge : Bridge St} (l : Leader) (st : St)
  : Leader * St * list Effect :=
  match server l with
  | Some _ =>
      ({| port := port l; server := None |}, close st, [ BridgeClose; ServerClose ])
  | None => (l, close st, [ BridgeClose ])
  end.

(* ================================================================= *)
(** ** An environment to run the handlers in *)

Definition kind_of (v : Value) : string :=
  match v with
  | VUndefined => "undefined"
  | VNull => "null"
  | VBool _ => "boolean"
  | VNumber _ => "number"
  | VString _ => "string"
  | VArray _ => "array"
  | VObject _ => "object"
  end.

(** The messages of zod 3's default error map for a value of the wrong
    kind. *)
Definition zod3 : ZodMessages :=
  {| invalid_type_message := fun expected v =>
       match v with
       | VUndefined => "Required"
       | _ => ("Expected " ++ expected ++ ", received " ++ kind_of v)%string
       end |}.

(** Modelled from the spec: the Bridge, of which [bridge.ts] is missing, as
    far as a caller of [sendWithParams] can tell (section 4.2).  Its state
    is whether a target is connected, and the replies the target is going to
    give, in order.  A call made while disconnected is rejected with a "not
    connected" error; a call the target never answers is rejected with a
    timeout error; otherwise the call resolves with the reply's data and
    error. *)
Record Scripted : Type := { connected : bool; replies : list Value }.

Definition scripted : Bridge Scripted :=
  {| sendWithParams := fun _ _ _ st =>
       if connected st then
         match replies st with
         | [] => (Throw (new_Error "request timed out"), st)
         | reply :: rest => (Return reply, {| connected := true; replies := rest |})
         end
       else (Throw (new_Error "not connected"), st);
     handleUpgrade := fun _ st => {| connected := true; replies := replies st |};
     close := fun st => {| connected := false; replies := replies st |} |}.

(* ================================================================= *)
(** ** Vocabulary of the properties *)

(** Two non-empty runs of decimal digits with a colon between them. *)
Definition colon_format (s : string) : Prop :=
  exists a b, s = (a ++ ":" ++ b)%string /\
              a <> "" /\ all_digits a = true /\
              b <> "" /\ all_digits b = true.

(** [issues[0].message], if there is an issue. *)
Definition first_issue (l : list string) : option string :=
  match l with
  | [] => None
  | issue :: _ => Some issue
  end.

(** The text [hay] contains [needle]. *)
Definition mentions (needle hay : string) : Prop := index 0 needle hay <> None.

(** The list of node ids that the schema of [get_screenshot] gets to see:
    the one in [params] when [params] has a key [nodeIds], the [nodeIds] of
    the request otherwise. *)
Definition effective_nodeIds (nodeIds params : Value) : Value :=
  match lookup "nodeIds" (spread params) with
  | Some v => v
  | None => nodeIds
  end.

(** A value is a node id when it is a string in colon format. *)
Definition is_node_id (v : Value) : Prop := exists s, v = VString s /\ colon_format s.

(** The three fields [handleRPC] reads of a request body. *)
Definition request_fields (body : Body) : Completion (Value * Value * Value) :=
  rpcReq <- JSON_parse body ;;
  tool <- member rpcReq "tool" ;;
  nodeIds <- member rpcReq "nodeIds" ;;
  params <- member rpcReq "params" ;;
  Return (tool, nodeIds, params).

(** What the Validator says of a request body: [handleRPC]'s way to the
    call of [validateRpc], and the call. *)
Definition validator_verdict {messages : ZodMessages} (body : Body)
  : Completion (option string) :=
  fields <- request_fields body ;;
  let '(tool, nodeIds, params) := fields in
  validateRpc tool nodeIds params.

(** The text zod gives for a value of the wrong kind is never empty. *)
Definition nonempty_messages {messages : ZodMessages} : Prop :=
  forall (expected : string) (v : Value), invalid_type_message expected v <> "".

Definition colon_message : string :=
  "Node ID must use colon format, e.g. '4029:12345'".

(** A thrown value of which the [catch] of [handleRPC] can take the
    message: an [Error], or a value that [String] renders. *)
Definition printable (e : Thrown) : Prop :=
  match e with
  | ErrorObject _ _ => True
  | ThrownValue v => exists s, ToString v = Return s
  end.

Definition json_headers : list (string * string) :=
  [ ("Content-Type", "application/json") ].

(** The Bridge rejects calls with errors, or with values that [String]
    renders. *)
Definition printable_rejections {St : Type} {bridge : Bridge St} : Prop :=
  forall (tool nodeIds params : Value) (st : St) (e : Thrown),
    fst (sendWithParams tool nodeIds params st) = Throw e -> printable e.

(** The JSON response [sendJSON] writes. *)
Definition json_response (status : N) (body : Value) : list Effect :=
  [ WriteHead status json_headers; End (Json (JSON_stringify body)) ].

(** The [catch] of [handleRPC], entered with the exception [e] in the state
    [st] after the effects [before]. *)
Definition caught {St : Type} (e : Thrown) (st : St) (before : list Effect)
  : Completion unit * St * list Effect :=
  match message_of e with
  | Return message =>
      (Return tt, st,
       before ++ json_response 200 (VObject [ ("error", VString message) ]))
  | Throw e' => (Throw e', st, before)
  end.

(* ================================================================= *)
(** ** Requests to run the handlers on *)

(** A Bridge with a connected target that is going to give [replies]. *)
Definition answering (replies : list Value) : Scripted :=
  {| connected := true; replies := replies |}.

(** POST /rpc with {"tool":"get_node","nodeIds":["bad-id"]} *)
Definition bad_id_request : Body :=
  JsonText (VObject [("tool", VString "get_node");
                     ("nodeIds", VArray [VString "bad-id"])]).

(** POST /rpc with
    {"tool":"get_screenshot","nodeIds":["4029:1"],"params":{"scale":2}} *)
Definition screenshot_request : Body :=
  JsonText (VObject [("tool", VString "get_screenshot");
                     ("nodeIds", VArray [VString "4029:1"]);
                     ("params", VObject [("scale", VNumber "2")])]).



(* ================================================================= *)
(** ** Vocabulary of the further properties *)

(** The names that have a schema. *)
Definition registered_tools : list string := map fst toolInputSchemas.

(** The messages the schemas can raise: the one of the node-id pattern, and
    zod's own for a string, a number or an array that is none. *)
Definition schema_message {messages : ZodMessages} (m : string) : Prop :=
  m = colon_message
  \/ exists expected v,
       In expected ["string"; "number"; "array"]
       /\ m = invalid_type_message expected v.

Definition is_Bridge_effect (e : Effect) : bool :=
  match e with
  | BridgeSend _ _ _ | BridgeUpgrade _ | BridgeClose => true
  | _ => false
  end.

Definition no_Bridge_effect (t : list Effect) : Prop :=
  forallb (fun e => negb (is_Bridge_effect e)) t = true.

Definition is_ListeningEvent (ev : ServerEvent) : bool :=
  match ev with
  | ListeningEvent => true
  | ErrorEvent _ _ => false
  end.

(** A Bridge without a target. *)
Definition disconnected : Scripted := {| connected := false; replies := [] |}.

(* ================================================================= *)
(** * Properties *)

Local Open Scope string_scope.

(** ** Strings *)

Lemma append_eq_empty (s1 s2 : string) : s1 ++ s2 = "" -> s1 = "" /\ s2 = "".
Proof. destruct s1; simpl; [auto | discriminate]. Qed.

(** A concatenation that starts with [c]: either the first part is empty,
    or it starts with [c] itself. *)
Lemma append_eq_String (s1 s2 : string) (c : ascii) (s : string) :
  s1 ++ s2 = String c s ->
  (s1 = "" /\ s2 = String c s) \/ (exists s1', s1 = String c s1' /\ s = s1' ++ s2).
Proof.
  destruct s1 as [|c1 s1]; simpl; intros E.
  - now left.
  - right. injection E as -> <-. now exists s1.
Qed.

(** ** The matcher decides the language of the expression *)

Lemma nullable_Matches (r : regexp) : nullable r = true -> Matches r "".
Proof.
  induction r; simpl; intros E; try discriminate.
  - constructor.
  - apply andb_true_iff in E as [E1 E2].
    change "" with ("" ++ ""). constructor; auto.
  - apply orb_true_iff in E as [E|E]; [apply MAltL | apply MAltR]; auto.
  - constructor.
Qed.

Lemma Matches_nullable {r : regexp} {s : string} :
  Matches r s -> s = "" -> nullable r = true.
Proof.
  induction 1; simpl; intros E; try discriminate; try reflexivity.
  - apply append_eq_empty in E as [-> ->]. now rewrite IHMatches1, IHMatches2.
  - now rewrite IHMatches.
  - rewrite IHMatches by assumption. apply orb_true_r.
Qed.

Lemma deriv_sound (c : ascii) (r : regexp) :
  forall s, Matches (deriv c r) s -> Matches r (String c s).
Proof.
  induction r; simpl; intros s M.
  - inversion M.
  - inversion M.
  - destruct (Ascii.eqb_spec c c0) as [->|]; inversion M; subst. constructor.
  - destruct (is_digit c) eqn:D; inversion M; subst. now constructor.
  - assert (L : forall s, Matches (Cat (deriv c r1) r2) s -> Matches (Cat r1 r2) (String c s)).
    { intros s0 M0. inversion M0; subst.
      change (String c (s1 ++ s2)) with (String c s1 ++ s2). constructor; auto. }
    destruct (nullable r1) eqn:N.
    + inversion M; subst; [now apply L|].
      change (String c s) with ("" ++ String c s).
      constructor; [now apply nullable_Matches | auto].
    + now apply L.
  - inversion M; subst; [apply MAltL | apply MAltR]; auto.
  - inversion M; subst.
    change (String c (s1 ++ s2)) with (String c s1 ++ s2). constructor; auto.
Qed.

Lemma deriv_complete {r : regexp} {s' : string} :
  Matches r s' -> forall c s, s' = String c s -> Matches (deriv c r) s.
Proof.
  induction 1; intros c0 s0 E; simpl.
  - discriminate.
  - injection E as -> <-. rewrite Ascii.eqb_refl. constructor.
  - injection E as -> <-. rewrite H. constructor.
  - apply append_eq_String in E as [[-> ->]|[s1' [-> ->]]].
    + rewrite (Matches_nullable H eq_refl). apply MAltR. now apply IHMatches2.
    + assert (M : Matches (Cat (deriv c0 r1) r2) (s1' ++ s2))
        by (constructor; auto).
      destruct (nullable r1); [now apply MAltL | exact M].
  - apply MAltL; auto.
  - apply MAltR; auto.
  - discriminate.
  - apply append_eq_String in E as [[-> ->]|[s1' [-> ->]]].
    + now apply IHMatches2.
    + constructor; auto.
Qed.

Theorem matches_spec (r : regexp) (s : string) : matches r s = true <-> Matches r s.
Proof.
  revert r. induction s as [|c s IH]; intros r; simpl.
  - split; [apply nullable_Matches | intros M; now apply (Matches_nullable M)].
  - rewrite IH. split; [apply deriv_sound | intros M; now apply (deriv_complete M)].
Qed.

(** ** The node-id pattern *)

Lemma Matches_Digit_inv (s : string) :
  Matches Digit s -> exists c, s = String c "" /\ is_digit c = true.
Proof. inversion 1; subst; eauto. Qed.

Lemma Matches_Star_Digit (s : string) :
  Matches (Star Digit) s <-> all_digits s = true.
Proof.
  split.
  - intros M. remember (Star Digit) as r eqn:Er.
    induction M; try discriminate; injection Er as ->.
    + reflexivity.
    + apply Matches_Digit_inv in M1 as [c [-> D]]. simpl. rewrite D. now apply IHM2.
  - induction s as [|c s IH]; simpl; intros E.
    + constructor.
    + apply andb_true_iff in E as [D E].
      change (String c s) with (String c "" ++ s).
      constructor; [now constructor | auto].
Qed.

Lemma Matches_Plus_Digit (s : string) :
  Matches (Plus Digit) s <-> s <> "" /\ all_digits s = true.
Proof.
  unfold Plus. split.
  - intros M. inversion M; subst.
    apply Matches_Digit_inv in H1 as [c [-> D]].
    apply Matches_Star_Digit in H3. simpl. rewrite D. split; [discriminate | auto].
  - intros [N E]. destruct s as [|c s]; [contradiction|].
    simpl in E. apply andb_true_iff in E as [D E].
    change (String c s) with (String c "" ++ s).
    constructor; [now constructor | now apply Matches_Star_Digit].
Qed.

Theorem node_id_pattern_spec (s : string) :
  test node_id_pattern s = true <-> colon_format s.
Proof.
  unfold test. rewrite matches_spec. simpl. split.
  - intros M. inversion M as [| | |? ? a t Ma Mt| | | |]; subst.
    inversion Mt as [| | |? ? k b Mk Mb| | | |]; subst.
    inversion Mk; subst.
    apply Matches_Plus_Digit in Ma as [? ?], Mb as [? ?].
    exists a, b. auto.
  - intros (a & b & -> & Na & Da & Nb & Db).
    constructor; [now apply Matches_Plus_Digit|].
    change (":" ++ b) with (String ":" "" ++ b).
    constructor; [constructor | now apply Matches_Plus_Digit].
Qed.

(** ** The validator, tool by tool *)

Section Validator.

Context {messages : ZodMessages}.

Lemma verdict_first_issue (l : list string) :
  match match l with [] => Success | i :: rest => Failure i rest end with
  | Success => Return None
  | Failure issue _ => Return (Some issue)
  end = Return (first_issue l).
Proof. now destruct l. Qed.

Lemma issues_figmaNodeId (v : Value) :
  issues figmaNodeId v =
  match v with
  | VString s => if test node_id_pattern s then [] else [colon_message]
  | _ => [invalid_type_message "string" v]
  end.
Proof. destruct v; try reflexivity. simpl. now destruct (test node_id_pattern s). Qed.

Lemma issues_object (shape : list (string * ZodType)) (props : list (string * Value)) :
  issues (z_object shape) (VObject props) =
  flat_map (fun field => issues (snd field) (prop (fst field) props)) shape.
Proof.
  induction shape as [|[k tk] rest IH]; [reflexivity|].
  simpl. f_equal. exact IH.
Qed.

Lemma validateRpc_get_node (nodeIds params : Value) :
  validateRpc (VString "get_node") nodeIds params =
  Return (first_issue (issues figmaNodeId (optional_first nodeIds))).
Proof.
  unfold validateRpc, safeParse. cbn -[issues figmaNodeId].
  rewrite verdict_first_issue, issues_object.
  cbn [flat_map fst snd describe]. now rewrite app_nil_r.
Qed.

Lemma validateRpc_get_design_context (nodeIds params : Value) :
  validateRpc (VString "get_design_context") nodeIds params =
  Return (first_issue (issues (optional z_number) (prop "depth" (spread params)))).
Proof.
  unfold validateRpc, safeParse. cbn -[issues optional z_number prop].
  rewrite verdict_first_issue, issues_object.
  cbn [flat_map fst snd describe]. now rewrite app_nil_r.
Qed.

Lemma prop_cons_other (k k' : string) (v : Value) (props : list (string * Value)) :
  k' <> k -> prop k ((k', v) :: props) = prop k props.
Proof.
  intros N. unfold prop. simpl. destruct (lookup k props); [reflexivity|].
  now destruct (String.eqb_spec k' k).
Qed.

Lemma prop_nodeIds (nodeIds params : Value) :
  prop "nodeIds" (("nodeIds", nodeIds) :: spread params) = effective_nodeIds nodeIds params.
Proof.
  unfold prop, effective_nodeIds. simpl. now destruct (lookup "nodeIds" (spread params)).
Qed.

Lemma validateRpc_get_screenshot (nodeIds params : Value) :
  validateRpc (VString "get_screenshot") nodeIds params =
  Return (first_issue
            (issues (optional (z_array figmaNodeId)) (effective_nodeIds nodeIds params)
             ++ issues (optional z_string) (prop "format" (spread params))
             ++ issues (optional z_number) (prop "scale" (spread params)))%list).
Proof.
  rewrite <- prop_nodeIds.
  rewrite <- (prop_cons_other "format" "nodeIds" nodeIds (spread params)) by discriminate.
  rewrite <- (prop_cons_other "scale" "nodeIds" nodeIds (spread params)) by discriminate.
  unfold validateRpc, safeParse.
  cbn -[issues optional z_array z_string z_number figmaNodeId prop].
  rewrite verdict_first_issue, issues_object.
  cbn [flat_map fst snd describe]. now rewrite app_nil_r.
Qed.

(** A name that is neither a registered tool nor inherited from
    [Object.prototype] passes. *)
Lemma validateRpc_unknown_tool (tool : string) (nodeIds params : Value) :
  has_property tool toolInputSchemas = false ->
  validateRpc (VString tool) nodeIds params = Return None.
Proof. intros E. unfold validateRpc. simpl. now rewrite E. Qed.

(** The three cases of a call: a registered tool, an inherited name, any
    other name. *)
Lemma validateRpc_cases (tool nodeIds params : Value) :
  validateRpc tool nodeIds params =
  (name <- ToPropertyKey tool ;;
   if name =? "get_node" then validateRpc (VString "get_node") nodeIds params
   else if name =? "get_design_context"
   then validateRpc (VString "get_design_context") nodeIds params
   else if name =? "get_screenshot"
   then validateRpc (VString "get_screenshot") nodeIds params
   else if existsb (String.eqb name) Object_prototype_keys
   then Throw (inherited_member_failure name nodeIds)
   else Return None).
Proof.
  unfold validateRpc at 1. destruct (ToPropertyKey tool) as [name|e]; [|reflexivity].
  cbn [bind].
  destruct (String.eqb_spec name "get_node") as [->|N1]; [reflexivity|].
  destruct (String.eqb_spec name "get_design_context") as [->|N2]; [reflexivity|].
  destruct (String.eqb_spec name "get_screenshot") as [->|N3]; [reflexivity|].
  assert (L1 : lookup name toolInputSchemas = None).
  { unfold toolInputSchemas. cbn [lookup].
    destruct (String.eqb_spec "get_screenshot" name); [congruence|].
    destruct (String.eqb_spec "get_design_context" name); [congruence|].
    destruct (String.eqb_spec "get_node" name); [congruence|]. reflexivity. }
  assert (O : has_own name toolInputSchemas = false).
  { unfold has_own, toolInputSchemas. cbn [existsb fst].
    destruct (String.eqb_spec "get_screenshot" name); [congruence|].
    destruct (String.eqb_spec "get_design_context" name); [congruence|].
    destruct (String.eqb_spec "get_node" name); [congruence|]. reflexivity. }
  unfold has_property. rewrite O, L1. cbn [orb].
  now destruct (existsb (String.eqb name) Object_prototype_keys).
Qed.

Lemma first_issue_app_none (l1 l2 : list string) :
  first_issue (l1 ++ l2)%list = None -> l1 = [].
Proof. destruct l1; [reflexivity | discriminate]. Qed.

Lemma Return_inj {A : Type} (a b : A) : Return a = Return b -> a = b.
Proof. now intros [= ->]. Qed.

Lemma first_issue_in (l : list string) (m : string) :
  first_issue l = Some m -> In m l.
Proof. destruct l; simpl; [discriminate|]. intros [= ->]. now left. Qed.

(** The issues of a list of node ids: none exactly when every element is a
    node id. *)
Lemma issues_node_ids_nil (elems : list Value) :
  flat_map (issues figmaNodeId) elems = [] <-> Forall is_node_id elems.
Proof.
  induction elems as [|e elems IH]; cbn [flat_map].
  - split; [constructor | reflexivity].
  - rewrite issues_figmaNodeId. split.
    + intros E. apply app_eq_nil in E as [E1 E2]. constructor; [|now apply IH].
      destruct e; try discriminate.
      destruct (test node_id_pattern s) eqn:T; [|discriminate].
      exists s. split; [reflexivity | now apply node_id_pattern_spec].
    + intros F. inversion F as [|? ? [s [-> C]] F']; subst.
      apply node_id_pattern_spec in C. rewrite C. simpl. now apply IH.
Qed.

Lemma issues_figmaNodeId_nonempty (v : Value) :
  nonempty_messages -> Forall (fun m => m <> "") (issues figmaNodeId v).
Proof.
  intros Hne. rewrite issues_figmaNodeId.
  destruct v; try (constructor; [apply Hne | constructor]).
  destruct (test node_id_pattern s); repeat constructor. discriminate.
Qed.

Lemma issues_node_ids_nonempty (elems : list Value) :
  nonempty_messages -> Forall (fun m => m <> "") (flat_map (issues figmaNodeId) elems).
Proof.
  intros Hne. induction elems as [|e elems IH]; cbn [flat_map]; [constructor|].
  apply Forall_app. split; [now apply issues_figmaNodeId_nonempty | exact IH].
Qed.

Lemma issues_optional_primitive_nonempty (t : ZodType) (v : Value) :
  nonempty_messages -> t = z_string \/ t = z_number ->
  Forall (fun m => m <> "") (issues (optional t) v).
Proof.
  intros Hne [-> | ->]; destruct v; simpl; repeat constructor; apply Hne.
Qed.

Lemma issues_optional_node_ids_nonempty (v : Value) :
  nonempty_messages ->
  Forall (fun m => m <> "") (issues (optional (z_array figmaNodeId)) v).
Proof.
  intros Hne.
  destruct v; try (repeat constructor; apply Hne).
  now apply issues_node_ids_nonempty.
Qed.

(** With messages that are not empty, an error the validator returns is
    not empty. *)
Lemma validateRpc_message_nonempty (tool nodeIds params : Value) (msg : string) :
  nonempty_messages ->
  validateRpc tool nodeIds params = Return (Some msg) -> msg <> "".
Proof.
  intros Hne. rewrite validateRpc_cases.
  destruct (ToPropertyKey tool) as [name|e]; [cbn [bind] | discriminate].
  destruct (name =? "get_node").
  { rewrite validateRpc_get_node. intros [= E]. apply first_issue_in in E.
    pose proof (issues_figmaNodeId_nonempty (optional_first nodeIds) Hne) as F.
    rewrite Forall_forall in F. now apply F. }
  destruct (name =? "get_design_context").
  { rewrite validateRpc_get_design_context. intros [= E]. apply first_issue_in in E.
    pose proof (issues_optional_primitive_nonempty z_number
                  (prop "depth" (spread params)) Hne (or_intror eq_refl)) as F.
    rewrite Forall_forall in F. now apply F. }
  destruct (name =? "get_screenshot").
  { rewrite validateRpc_get_screenshot. intros [= E]. apply first_issue_in in E.
    apply in_app_or in E as [E|E]; [|apply in_app_or in E as [E|E]].
    - pose proof (issues_optional_node_ids_nonempty
                    (effective_nodeIds nodeIds params) Hne) as F.
      rewrite Forall_forall in F. now apply F.
    - pose proof (issues_optional_primitive_nonempty z_string
                    (prop "format" (spread params)) Hne (or_introl eq_refl)) as F.
      rewrite Forall_forall in F. now apply F.
    - pose proof (issues_optional_primitive_nonempty z_number
                    (prop "scale" (spread params)) Hne (or_intror eq_refl)) as F.
      rewrite Forall_forall in F. now apply F. }
  destruct (existsb (String.eqb name) Object_prototype_keys); discriminate.
Qed.

(** C2.  For every string in the language of [^\d+:\d+$],
    [validateRpc("get_node", [nodeId])] returns [null]; for every other
    string it returns a message, which is not empty and speaks of the
    colon format. *)
Theorem get_node_accepts_colon_format (nodeId : string) (params : Value) :
  (Matches (body node_id_pattern) nodeId ->
   validateRpc (VString "get_node") (VArray [VString nodeId]) params = Return None)
  /\
  (~ Matches (body node_id_pattern) nodeId ->
   exists msg,
     validateRpc (VString "get_node") (VArray [VString nodeId]) params
     = Return (Some msg)
     /\ msg <> "" /\ mentions "colon format" msg).
Proof.
  rewrite validateRpc_get_node, issues_figmaNodeId. cbn [optional_first nth].
  unfold test. split; intros M.
  - apply matches_spec in M. now rewrite M.
  - destruct (matches (body node_id_pattern) nodeId) eqn:E.
    + apply matches_spec in E. contradiction.
    + exists colon_message. repeat split; discriminate.
Qed.

(** C9.  [validateRpc("get_node", nodeIds, params)] depends on the first
    element of [nodeIds] only: two lists with the same element 0 (or both
    without one) give the same result, whatever their other elements and
    whatever [params]. *)
Theorem get_node_reads_first_element_only (l1 l2 : list Value) (p1 p2 : Value) :
  nth_error l1 0 = nth_error l2 0 ->
  validateRpc (VString "get_node") (VArray l1) p1
  = validateRpc (VString "get_node") (VArray l2) p2.
Proof.
  intros E. rewrite !validateRpc_get_node. cbn [optional_first].
  destruct l1 as [|a l1], l2 as [|b l2]; cbn [nth_error] in E; try discriminate.
  - reflexivity.
  - injection E as ->. reflexivity.
Qed.

(** C10.  When [params] has a key [nodeIds], the [nodeIds] field of the
    canonical argument of [get_screenshot] is the one of [params], and the
    [nodeIds] of the request has no effect on the result. *)
Theorem get_screenshot_params_override_nodeIds (params v n1 n2 : Value) :
  lookup "nodeIds" (spread params) = Some v ->
  (exists toArgs args,
     lookup "get_screenshot" rpcToArgs = Some toArgs
     /\ toArgs n1 params = VObject args
     /\ prop "nodeIds" args = v)
  /\ validateRpc (VString "get_screenshot") n1 params
     = validateRpc (VString "get_screenshot") n2 params.
Proof.
  intros L. split.
  - eexists. eexists. split; [reflexivity|]. split; [reflexivity|].
    rewrite prop_nodeIds. unfold effective_nodeIds. now rewrite L.
  - rewrite !validateRpc_get_screenshot. unfold effective_nodeIds. now rewrite L.
Qed.

(** C5, as the code has it.  For [validateRpc("get_screenshot", nodeIds,
    params)], the list that is checked is the effective one: the [nodeIds]
    of [params] when [params] has that key, the [nodeIds] of the request
    otherwise.  If it is a list with an element that is not a node id, a
    message that is not empty is returned.  If it is absent or a list of
    node ids, the request passes exactly when [format] is absent or a
    string and [scale] is absent or a number. *)
Theorem get_screenshot_checks_effective_nodeIds (nodeIds params : Value) :
  nonempty_messages ->
  (forall elems,
     effective_nodeIds nodeIds params = VArray elems ->
     (exists e, In e elems /\ ~ is_node_id e) ->
     exists msg,
       validateRpc (VString "get_screenshot") nodeIds params = Return (Some msg)
       /\ msg <> "")
  /\
  (effective_nodeIds nodeIds params = VUndefined
   \/ (exists elems, effective_nodeIds nodeIds params = VArray elems
                     /\ Forall is_node_id elems) ->
   (validateRpc (VString "get_screenshot") nodeIds params = Return None
    <->
    (prop "format" (spread params) = VUndefined
     \/ exists s, prop "format" (spread params) = VString s)
    /\
    (prop "scale" (spread params) = VUndefined
     \/ exists r, prop "scale" (spread params) = VNumber r))).
Proof.
  intros Hne. split.
  - intros elems E [bad [I Ne]].
    assert (N : ~ Forall is_node_id elems)
      by (rewrite Forall_forall; intros F; apply Ne, F, I).
    destruct (validateRpc (VString "get_screenshot") nodeIds params) as [[msg|]|e] eqn:V.
    + exists msg. split; [reflexivity|]. now apply (validateRpc_message_nonempty _ _ _ _ Hne V).
    + exfalso. rewrite validateRpc_get_screenshot, E in V.
      apply Return_inj, first_issue_app_none in V.
      apply N, issues_node_ids_nil. exact V.
    + rewrite validateRpc_get_screenshot in V. discriminate.
  - intros Ok. rewrite validateRpc_get_screenshot.
    assert (E : issues (optional (z_array figmaNodeId)) (effective_nodeIds nodeIds params) = []).
    { destruct Ok as [-> | [elems [-> F]]]; [reflexivity|]. now apply issues_node_ids_nil. }
    rewrite E. cbn [app].
    destruct (prop "format" (spread params)) eqn:Ef, (prop "scale" (spread params)) eqn:Es;
      simpl; split;
      try discriminate;
      try (intros _; split; eauto; fail);
      try (intros [[Hf|[? Hf]] [Hs|[? Hs]]]; try discriminate; reflexivity).
Qed.

End Validator.

(** C3: a name inherited from [Object.prototype] is not passed through. *)
Theorem inherited_name_is_not_passed_through (messages : ZodMessages) :
  has_own "toString" toolInputSchemas = false
  /\ validateRpc (VString "toString") VUndefined VUndefined
     = Throw (TypeError "toolInputSchemas[name].safeParse is not a function").
Proof. split; reflexivity. Qed.

(** ** The front door *)

Section FrontDoor.

Context {St : Type} {bridge : Bridge St} {messages : ZodMessages}.

Lemma JSON_stringify_none (v : Value) : JSON_stringify v = None <-> v = VUndefined.
Proof. destruct v; simpl; split; congruence. Qed.

Lemma ToBoolean_of_nullable (o : option string) :
  ToBoolean (of_nullable o) = true <-> exists msg, o = Some msg /\ msg <> "".
Proof.
  destruct o as [msg|]; simpl.
  - destruct (String.eqb_spec msg ""); simpl; split.
    + discriminate.
    + intros [m [[= <-] N]]. contradiction.
    + eauto.
    + reflexivity.
  - split; [discriminate | intros [m [? _]]; discriminate].
Qed.

(** POST /rpc is what [handleRPC] serves. *)
Lemma onRequest_rpc (VERSION : string) (request : Body) :
  onRequest VERSION "/rpc" "POST" request = handleRPC request.
Proof. reflexivity. Qed.

(** The handler, case by case. *)
Lemma handleRPC_cases (request : Body) (st : St) :
  handleRPC request st =
  match request_fields request with
  | Throw e => caught e st []
  | Return (tool, nodeIds, params) =>
      match validateRpc tool nodeIds params with
      | Throw e => caught e st []
      | Return verdict =>
          if ToBoolean (of_nullable verdict)
          then (Return tt, st,
                json_response 400 (VObject [("error", of_nullable verdict)]))
          else
            let sent := [BridgeSend tool nodeIds params] in
            match sendWithParams tool nodeIds params st with
            | (Throw e, st1) => caught e st1 sent
            | (Return resp, st1) =>
                match member resp "error" with
                | Throw e => caught e st1 sent
                | Return error =>
                    if ToBoolean error
                    then (Return tt, st1,
                          sent ++ json_response 200 (VObject [("error", error)]))%list
                    else
                      match member resp "data" with
                      | Throw e => caught e st1 sent
                      | Return data =>
                          (Return tt, st1,
                           sent ++ json_response 200 (VObject [("data", data)]))%list
                      end
                end
            end
      end
  end.
Proof.
  unfold handleRPC, request_fields, caught, try_catch, mbind, lift.
  destruct request as [rpcReq|syntax_error]; cbn [bind JSON_parse]; [|reflexivity].
  destruct (member rpcReq "tool") as [tool|e]; cbn [bind].
  2:{ destruct (message_of e); reflexivity. }
  destruct (member rpcReq "nodeIds") as [nodeIds|e]; cbn [bind].
  2:{ destruct (message_of e); reflexivity. }
  destruct (member rpcReq "params") as [params|e]; cbn [bind].
  2:{ destruct (message_of e); reflexivity. }
  destruct (validateRpc tool nodeIds params) as [verdict|e]; cbn [bind].
  2:{ destruct (message_of e); reflexivity. }
  destruct (ToBoolean (of_nullable verdict)); [reflexivity|].
  unfold await_sendWithParams.
  destruct (sendWithParams tool nodeIds params st) as [[resp|e] st1].
  2:{ destruct (message_of e); reflexivity. }
  destruct (member resp "error") as [error|e].
  2:{ destruct (message_of e); reflexivity. }
  destruct (ToBoolean error); [reflexivity|].
  destruct (member resp "data") as [data|e]; [reflexivity|].
  destruct (message_of e); reflexivity.
Qed.

Lemma caught_printable (e : Thrown) (st : St) (before : list Effect) :
  printable e ->
  exists message,
    caught e st before
    = (Return tt, st,
       before ++ json_response 200 (VObject [("error", VString message)]))%list.
Proof.
  unfold caught. destruct e as [name message|v]; simpl.
  - intros _. now exists message.
  - intros [s ->]. now exists s.
Qed.

(** Exceptions of the language itself are errors. *)
Lemma member_printable (v : Value) (k : string) (e : Thrown) :
  member v k = Throw e -> printable e.
Proof. destruct v; simpl; intros [= <-]; exact I. Qed.


End FrontDoor.

(** The only exception [String(v)] ends in is the [TypeError] of a failed
    conversion. *)
Lemma ToString_throws (v : Value) (e : Thrown) :
  ToString v = Throw e -> e = TypeError "Cannot convert object to primitive value".
Proof.
  revert e. induction v as [| |b|r|s|elems IH|props _] using Value_nested_ind;
    intros e; try discriminate.
  - destruct b; discriminate.
  - cbn [ToString].
    match goal with
    | |- bind (?each elems) _ = _ -> _ => set (each_ := each)
    end.
    assert (L : forall e', each_ elems = Throw e' ->
                           e' = TypeError "Cannot convert object to primitive value").
    { induction IH as [|x rest Hx _ IHrest]; intros e'; [discriminate|].
      cbn. fold each_. 
      destruct x; cbn [bind];
        try (destruct (each_ rest) eqn:R; cbn [bind]; [discriminate | intros [= <-]; now apply IHrest]).
      all: match goal with
           | |- context [ToString ?x] => destruct (ToString x) eqn:T; cbn [bind]
           end.
      all: try (intros [= <-]; now apply Hx).
      all: destruct (each_ rest) eqn:R; cbn [bind]; [discriminate | intros [= <-]; now apply IHrest]. }
    destruct (each_ elems) eqn:R; cbn [bind]; [discriminate|].
    intros [= <-]. now apply L.
  - cbn [ToString]. destruct (has_own "toString" props); [|discriminate].
    now intros [= <-].
Qed.

Lemma ToString_printable (v : Value) (e : Thrown) : ToString v = Throw e -> printable e.
Proof. intros T. now rewrite (ToString_throws _ _ T). Qed.

Section Claims.

Context {St : Type} {bridge : Bridge St} {messages : ZodMessages}.

Lemma request_fields_printable (request : Body) (e : Thrown) :
  request_fields request = Throw e -> printable e.
Proof.
  unfold request_fields.
  destruct request as [rpcReq|syntax_error]; cbn [bind JSON_parse]; [|now intros [= <-]].
  destruct rpcReq; cbn; intros [= <-]; exact I.
Qed.

Lemma validateRpc_printable (tool nodeIds params : Value) (e : Thrown) :
  validateRpc tool nodeIds params = Throw e -> printable e.
Proof.
  rewrite validateRpc_cases.
  destruct (ToPropertyKey tool) as [name|e0] eqn:K; cbn [bind].
  - rewrite validateRpc_get_node, validateRpc_get_design_context,
      validateRpc_get_screenshot.
    repeat match goal with |- context [if ?b then _ else _] => destruct b end;
      try discriminate.
    intros [= <-]. unfold inherited_member_failure.
    repeat match goal with |- context [if ?b then _ else _] => destruct b end;
      try exact I.
    destruct (ToPropertyKey nodeIds) eqn:Kn; [exact I|].
    now apply ToString_printable in Kn.
  - intros [= <-]. now apply ToString_printable in K.
Qed.


Lemma keys_of_error (error : Value) :
  error <> VUndefined ->
  keys_of (JSON_stringify (VObject [("error", error)])) = ["error"].
Proof.
  intros N. cbn. destruct (JSON_stringify error) eqn:J; [reflexivity|].
  now apply JSON_stringify_none in J.
Qed.

Lemma keys_of_data (data : Value) :
  data <> VUndefined ->
  keys_of (JSON_stringify (VObject [("data", data)])) = ["data"].
Proof.
  intros N. cbn. destruct (JSON_stringify data) eqn:J; [reflexivity|].
  now apply JSON_stringify_none in J.
Qed.

Lemma truthy_defined (v : Value) : ToBoolean v = true -> v <> VUndefined.
Proof. now intros T ->. Qed.

(** C4, as the code has it.  Every body [handleRPC] sends has at most one
    of the keys [data] and [error], never both.  It has exactly one of them
    unless the Bridge's response carries no truthy [error] and no [data]:
    the body is then the empty object. *)
Theorem rpc_body_never_has_both_keys (request : Body) (st : St) :
  printable_rejections ->
  exists (status : N) (doc : option Value) (st' : St) (calls : list Effect),
    handleRPC request st
    = (Return tt, st', calls ++ [WriteHead status json_headers; End (Json doc)])%list
    /\ (keys_of doc = ["error"]
        \/ keys_of doc = ["data"]
        \/ (doc = Some (VObject [])
            /\ exists tool nodeIds params resp error,
                sendWithParams tool nodeIds params st = (Return resp, st')
                /\ member resp "error" = Return error
                /\ ToBoolean error = false
                /\ member resp "data" = Return VUndefined)).
Proof.
  intros Hrej. rewrite handleRPC_cases.
  assert (Caught : forall e (st1 : St) calls,
             printable e ->
             exists status doc st' calls',
               caught e st1 calls
               = (Return tt, st',
                  calls' ++ [WriteHead status json_headers; End (Json doc)])%list
               /\ (keys_of doc = ["error"]
                   \/ keys_of doc = ["data"]
                   \/ (doc = Some (VObject [])
                       /\ exists tool nodeIds params resp error,
                           sendWithParams tool nodeIds params st = (Return resp, st')
                           /\ member resp "error" = Return error
                           /\ ToBoolean error = false
                           /\ member resp "data" = Return VUndefined))).
  { intros e st1 calls Pe.
    destruct (caught_printable e st1 calls Pe) as [message ->].
    exists 200%N, (JSON_stringify (VObject [("error", VString message)])), st1, calls.
    split; [reflexivity|]. left. apply keys_of_error. discriminate. }
  destruct (request_fields request) as [[[tool nodeIds] params]|e] eqn:F.
  2:{ apply Caught. now apply (request_fields_printable request). }
  destruct (validateRpc tool nodeIds params) as [verdict|e] eqn:V.
  2:{ apply Caught. now apply (validateRpc_printable tool nodeIds params). }
  destruct (ToBoolean (of_nullable verdict)) eqn:T.
  { exists 400%N, (JSON_stringify (VObject [("error", of_nullable verdict)])), st, [].
    split; [reflexivity|]. left. now apply keys_of_error, truthy_defined. }
  cbv zeta.
  destruct (sendWithParams tool nodeIds params st) as [[resp|e] st1] eqn:B.
  2:{ apply Caught. apply (Hrej tool nodeIds params st). now rewrite B. }
  destruct (member resp "error") as [error|e] eqn:Me.
  2:{ apply Caught. now apply (member_printable resp "error"). }
  destruct (ToBoolean error) eqn:Te.
  { exists 200%N, (JSON_stringify (VObject [("error", error)])), st1,
      [BridgeSend tool nodeIds params].
    split; [reflexivity|]. left. now apply keys_of_error, truthy_defined. }
  destruct (member resp "data") as [data|e] eqn:Md.
  2:{ apply Caught. now apply (member_printable resp "data"). }
  exists 200%N, (JSON_stringify (VObject [("data", data)])), st1,
    [BridgeSend tool nodeIds params].
  split; [reflexivity|].
  destruct data;
    try (right; left; apply keys_of_data; discriminate).
  right. right. split; [reflexivity|].
  exists tool, nodeIds, params, resp, error. auto.
Qed.

(** C6.  When the Validator returns an error for a request, [handleRPC]
    answers 400 and that is all it does: the state of the Bridge is the one
    before the request, and no call of [sendWithParams] is among the
    effects. *)
Theorem validator_error_never_reaches_bridge
    (request : Body) (st : St) (msg : string) :
  nonempty_messages ->
  validator_verdict request = Return (Some msg) ->
  handleRPC request st
  = (Return tt, st, json_response 400 (VObject [("error", VString msg)]))
  /\ forall tool nodeIds params,
       ~ In (BridgeSend tool nodeIds params)
            (snd (handleRPC request st)).
Proof.
  intros Hne Hv.
  assert (E : handleRPC request st
              = (Return tt, st, json_response 400 (VObject [("error", VString msg)]))).
  { rewrite handleRPC_cases. unfold validator_verdict in Hv.
    destruct (request_fields request) as [[[tool nodeIds] params]|e];
      cbn [bind] in Hv; [|discriminate].
    rewrite Hv.
    assert (T : ToBoolean (of_nullable (Some msg)) = true).
    { apply ToBoolean_of_nullable. exists msg. split; [reflexivity|].
      now apply (validateRpc_message_nonempty tool nodeIds params). }
    now rewrite T. }
  split; [exact E|].
  intros tool nodeIds params. rewrite E. cbn.
  intros [X|[X|[]]]; discriminate.
Qed.


End Claims.

(** ** Startup *)

Lemma settled_promise_stays (events : list ServerEvent) (s : Startup) :
  promise s <> Pending -> promise (run_server_events events s) = promise s.
Proof.
  revert s. induction events as [|ev events IH]; intros s N; [reflexivity|].
  cbn [run_server_events fold_left]. fold (run_server_events events (on_server_event ev s)).
  assert (E : promise (on_server_event ev s) = promise s).
  { destruct ev; cbn; [destruct (error_listener s); cbn|];
      destruct (promise s); try reflexivity; contradiction. }
  rewrite IH; [exact E | now rewrite E].
Qed.

Lemma listen_calls_stay (events : list ServerEvent) (s : Startup) :
  filter is_Listen (trace (run_server_events events s)) = filter is_Listen (trace s).
Proof.
  revert s. induction events as [|ev events IH]; intros s; [reflexivity|].
  cbn [run_server_events fold_left]. fold (run_server_events events (on_server_event ev s)).
  rewrite IH. destruct ev; cbn; [now destruct (error_listener s)|].
  rewrite filter_app. cbn. apply app_nil_r.
Qed.

(** C7.  When the port is already bound, so that the [server.listen] of
    [start()] is answered by an [error] event with the code [EADDRINUSE]:
    the promise of [start()] is rejected with an error whose message names
    the port, and the leader's [server] field is what it was (null for a
    new leader).  Whatever events follow, the promise stays rejected with
    that error and [listen] has been called once: there is no retry. *)
Theorem start_fails_fast_when_port_in_use
    (l : Leader) (message : string) (later : list ServerEvent) :
  let failed := on_server_event (ErrorEvent "EADDRINUSE" message) (start l) in
  let port_in_use := new_Error ("Port " ++ decimal (port l) ++ " already in use") in
  promise failed = Rejected port_in_use
  /\ server (leader failed) = server l
  /\ promise (run_server_events later failed) = Rejected port_in_use
  /\ filter is_Listen (trace (run_server_events later failed)) = [Listen (port l)].
Proof.
  cbv zeta. split; [reflexivity|]. split; [reflexivity|]. split.
  - rewrite settled_promise_stays; [reflexivity | discriminate].
  - rewrite listen_calls_stay. reflexivity.
Qed.

(** ** The properties at work *)

(** The last two examples of section 8 of the specification. *)
Example screenshot_request_is_answered :
  handleRPC (bridge:=scripted) (messages:=zod3) screenshot_request
    (answering [VObject [("data", VObject [("url", VString "x")])]])
  = (Return tt, answering [],
     [ BridgeSend (VString "get_screenshot") (VArray [VString "4029:1"])
         (VObject [("scale", VNumber "2")]);
       WriteHead 200 json_headers;
       End (Json (Some (VObject [("data", VObject [("url", VString "x")])]))) ]).
Proof. reflexivity. Qed.

Example bad_id_request_is_refused :
  handleRPC (bridge:=scripted) (messages:=zod3) bad_id_request (answering [])
  = (Return tt, answering [],
     [ WriteHead 400 json_headers;
       End (Json (Some (VObject [("error", VString colon_message)]))) ]).
Proof. reflexivity. Qed.


(** The three node ids the specification names, seen through C2. *)
Lemma get_node_witness :
  validateRpc (messages:=zod3) (VString "get_node") (VArray [VString "4029:12345"]) VUndefined
  = Return None
  /\ (exists msg,
        validateRpc (messages:=zod3) (VString "get_node") (VArray [VString "4029-12345"]) VUndefined
        = Return (Some msg)
        /\ msg <> "" /\ mentions "colon format" msg)
  /\ (exists msg,
        validateRpc (messages:=zod3) (VString "get_node") (VArray [VString "abc"]) VUndefined
        = Return (Some msg)
        /\ msg <> "" /\ mentions "colon format" msg).
Proof.
  split; [|split].
  - apply (get_node_accepts_colon_format (messages:=zod3) "4029:12345" VUndefined).
    apply matches_spec. reflexivity.
  - apply (get_node_accepts_colon_format (messages:=zod3) "4029-12345" VUndefined).
    intros M. apply matches_spec in M. discriminate.
  - apply (get_node_accepts_colon_format (messages:=zod3) "abc" VUndefined).
    intros M. apply matches_spec in M. discriminate.
Defined.

(** A second element and [params] change nothing for [get_node]. *)
Lemma get_node_first_element_witness :
  validateRpc (messages:=zod3) (VString "get_node")
    (VArray [VString "1:2"; VString "junk"]) (VObject [("depth", VString "x")])
  = validateRpc (messages:=zod3) (VString "get_node") (VArray [VString "1:2"]) VUndefined.
Proof.
  apply (get_node_reads_first_element_only (messages:=zod3)). reflexivity.
Defined.

(** A list in [params] takes the place of the list of the request. *)
Lemma get_screenshot_override_witness :
  (exists toArgs args,
     lookup "get_screenshot" rpcToArgs = Some toArgs
     /\ toArgs (VArray [VString "abc"]) (VObject [("nodeIds", VArray [VString "1:2"])])
       = VObject args
     /\ prop "nodeIds" args = VArray [VString "1:2"])
  /\ validateRpc (messages:=zod3) (VString "get_screenshot")
       (VArray [VString "abc"]) (VObject [("nodeIds", VArray [VString "1:2"])])
     = validateRpc (messages:=zod3) (VString "get_screenshot")
         VUndefined (VObject [("nodeIds", VArray [VString "1:2"])]).
Proof.
  apply (get_screenshot_params_override_nodeIds (messages:=zod3)). reflexivity.
Defined.

(** The claim C5 read on the [nodeIds] of the request fails: a list with
    the element ["abc"], which is not in colon format, passes when [params]
    brings a list of its own. *)
Lemma get_screenshot_ignores_request_nodeIds :
  test node_id_pattern "abc" = false
  /\ validateRpc (messages:=zod3) (VString "get_screenshot")
       (VArray [VString "abc"]) (VObject [("nodeIds", VArray [VString "1:2"])])
     = Return None.
Proof. split; reflexivity. Qed.

(** A list with a hyphenless ["abc"] is refused; a good list passes with a
    string for [format] and a number for [scale]. *)
Lemma get_screenshot_witness :
  (exists msg,
     validateRpc (messages:=zod3) (VString "get_screenshot")
       (VArray [VString "1:2"; VString "abc"]) (VObject [("scale", VNumber "2")])
     = Return (Some msg) /\ msg <> "")
  /\ (validateRpc (messages:=zod3) (VString "get_screenshot")
        (VArray [VString "1:2"]) (VObject [("format", VString "SVG"); ("scale", VNumber "0.5")])
      = Return None).
Proof.
  split.
  - apply (proj1 (get_screenshot_checks_effective_nodeIds (messages:=zod3)
                    (VArray [VString "1:2"; VString "abc"])
                    (VObject [("scale", VNumber "2")])
                    (fun expected v => ltac:(destruct v; discriminate)))
             [VString "1:2"; VString "abc"] eq_refl).
    exists (VString "abc"). split; [simpl; auto|].
    intros [s [[= <-] C]]. apply node_id_pattern_spec in C. discriminate.
  - apply (proj2 (get_screenshot_checks_effective_nodeIds (messages:=zod3)
                    (VArray [VString "1:2"])
                    (VObject [("format", VString "SVG"); ("scale", VNumber "0.5")])
                    (fun expected v => ltac:(destruct v; discriminate)))).
    + right. exists [VString "1:2"]. split; [reflexivity|].
      constructor; [|constructor]. exists "1:2". split; [reflexivity|].
      apply node_id_pattern_spec. reflexivity.
    + split; [right; now exists "SVG" | right; now exists "0.5"].
Defined.

(** The claim C4 fails in its "never neither": when the Bridge's response
    has an error that is the empty string, or brings no data, the body sent
    is the empty object. *)
Lemma rpc_body_can_have_neither_key :
  handleRPC (bridge:=scripted) (messages:=zod3)
    (JsonText (VObject [("tool", VString "get_design_context")]))
    (answering [VObject [("error", VString "")]])
  = (Return tt, answering [],
     [ BridgeSend (VString "get_design_context") VUndefined VUndefined;
       WriteHead 200 json_headers;
       End (Json (Some (VObject []))) ])
  /\
  handleRPC (bridge:=scripted) (messages:=zod3)
    (JsonText (VObject [("tool", VString "get_design_context")]))
    (answering [VObject []])
  = (Return tt, answering [],
     [ BridgeSend (VString "get_design_context") VUndefined VUndefined;
       WriteHead 200 json_headers;
       End (Json (Some (VObject []))) ])
  /\ keys_of (Some (VObject [])) = [].
Proof. repeat split. Qed.

(** The answered request has one key, [data]. *)
Lemma rpc_body_witness :
  exists (status : N) (doc : option Value) (st' : Scripted) (calls : list Effect),
    handleRPC (bridge:=scripted) (messages:=zod3) screenshot_request
      (answering [VObject [("data", VObject [("url", VString "x")])]])
    = (Return tt, st', calls ++ [WriteHead status json_headers; End (Json doc)])%list
    /\ (keys_of doc = ["error"]
        \/ keys_of doc = ["data"]
        \/ (doc = Some (VObject [])
            /\ exists tool nodeIds params resp error,
                sendWithParams (Bridge:=scripted) tool nodeIds params
                  (answering [VObject [("data", VObject [("url", VString "x")])]])
                = (Return resp, st')
                /\ member resp "error" = Return error
                /\ ToBoolean error = false
                /\ member resp "data" = Return VUndefined)).
Proof.
  apply (rpc_body_never_has_both_keys (bridge:=scripted) (messages:=zod3)).
  intros tool nodeIds params st e. simpl.
  destruct (connected st); [destruct (replies st)|]; simpl; intros [= <-]; exact I.
Defined.

(** The refused request leaves the target's pending reply where it is. *)
Lemma validator_error_witness :
  handleRPC (bridge:=scripted) (messages:=zod3) bad_id_request
    (answering [VObject [("data", VNull)]])
  = (Return tt, answering [VObject [("data", VNull)]],
     json_response 400 (VObject [("error", VString colon_message)]))
  /\ forall tool nodeIds params,
       ~ In (BridgeSend tool nodeIds params)
            (snd (handleRPC (bridge:=scripted) (messages:=zod3) bad_id_request
                    (answering [VObject [("data", VNull)]]))).
Proof.
  apply (validator_error_never_reaches_bridge (bridge:=scripted) (messages:=zod3)).
  - intros expected v. destruct v; discriminate.
  - reflexivity.
Defined.


(* ================================================================= *)
(** * Further properties *)

(** ** The validator *)

Section MoreValidator.

Context {messages : ZodMessages}.

(** X1.  The schema of a node id accepts a value exactly when it is a string
    made of digits, a colon and digits, nothing else: no other kind of
    value, no sign, space, hyphen or second colon. *)
Theorem figmaNodeId_accepts_exactly_node_ids (v : Value) :
  safeParse figmaNodeId v = Success <-> is_node_id v.
Proof.
  unfold safeParse. rewrite issues_figmaNodeId. split.
  - destruct v; try discriminate.
    destruct (test node_id_pattern s) eqn:T; [|discriminate].
    intros _. exists s. split; [reflexivity | now apply node_id_pattern_spec].
  - intros [s [-> C]]. apply node_id_pattern_spec in C. now rewrite C.
Qed.


(** X3.  [get_node] needs a first node id that is a string.  Without
    [nodeIds], with [null] or with the empty list the value checked is
    [undefined], and the message is zod's for a missing string; a first
    element of another kind gets zod's message for that element. *)
Theorem get_node_requires_a_string (nodeIds params : Value) :
  (nodeIds = VUndefined \/ nodeIds = VNull \/ nodeIds = VArray [] ->
   validateRpc (VString "get_node") nodeIds params
   = Return (Some (invalid_type_message "string" VUndefined)))
  /\
  (forall first rest,
     nodeIds = VArray (first :: rest) ->
     (forall s, first <> VString s) ->
     validateRpc (VString "get_node") nodeIds params
     = Return (Some (invalid_type_message "string" first))).
Proof.
  rewrite validateRpc_get_node, issues_figmaNodeId. split.
  - intros [-> | [-> | ->]]; reflexivity.
  - intros first rest -> N. cbn [optional_first nth].
    destruct first; try reflexivity. now destruct (N s).
Qed.

Lemma inherited_not_registered (tool : string) :
  In tool Object_prototype_keys -> ~ In tool registered_tools.
Proof.
  cbn. intros H R.
  repeat (destruct H as [<- | H]; [ repeat (destruct R as [R | R]; [discriminate R|]); exact R |]).
  exact H.
Qed.

(** X4.  For a tool name that is a string, [validateRpc] throws exactly
    when the name is one of those inherited from [Object.prototype]; a name
    that is neither registered nor inherited passes with [null], whatever
    [nodeIds] and [params]. *)
Theorem validateRpc_throws_exactly_on_inherited_names
    (tool : string) (nodeIds params : Value) :
  (In tool Object_prototype_keys
   <-> exists e, validateRpc (VString tool) nodeIds params = Throw e)
  /\
  (~ In tool registered_tools -> ~ In tool Object_prototype_keys ->
   validateRpc (VString tool) nodeIds params = Return None).
Proof.
  rewrite validateRpc_cases. cbn [ToPropertyKey ToString bind].
  rewrite validateRpc_get_node, validateRpc_get_design_context,
    validateRpc_get_screenshot.
  assert (Reg : forall b : bool,
             (tool =? "get_node") || (tool =? "get_design_context")
             || (tool =? "get_screenshot") = b ->
             if b then In tool registered_tools else ~ In tool registered_tools).
  { intros b <-.
    destruct (String.eqb_spec tool "get_node") as [->|N1]; [cbn; auto|].
    destruct (String.eqb_spec tool "get_design_context") as [->|N2]; [cbn; auto|].
    destruct (String.eqb_spec tool "get_screenshot") as [->|N3]; [cbn; auto|].
    cbn. intros [E|[E|[E|[]]]]; congruence. }
  destruct (existsb (String.eqb tool) Object_prototype_keys) eqn:I.
  - assert (In tool Object_prototype_keys) as Hin.
    { apply existsb_exists in I as [k [Hk E]]. apply String.eqb_eq in E. now subst. }
    pose proof (inherited_not_registered tool Hin) as NR.
    specialize (Reg _ eq_refl).
    destruct ((tool =? "get_node") || (tool =? "get_design_context")
              || (tool =? "get_screenshot")) eqn:R; [contradiction|].
    apply orb_false_iff in R as [R R3]. apply orb_false_iff in R as [R1 R2].
    rewrite R1, R2, R3. split; [|contradiction].
    split; [eauto | auto].
  - assert (~ In tool Object_prototype_keys) as Hnin.
    { intros Hin. assert (existsb (String.eqb tool) Object_prototype_keys = true); [|congruence].
      apply existsb_exists. exists tool. split; [exact Hin | apply String.eqb_refl]. }
    split.
    + split; [contradiction|]. intros [e E].
      destruct (tool =? "get_node"); [discriminate|].
      destruct (tool =? "get_design_context"); [discriminate|].
      destruct (tool =? "get_screenshot"); discriminate.
    + intros NR _. specialize (Reg _ eq_refl).
      destruct ((tool =? "get_node") || (tool =? "get_design_context")
                || (tool =? "get_screenshot")) eqn:R; [contradiction|].
      apply orb_false_iff in R as [R R3]. apply orb_false_iff in R as [R1 R2].
      now rewrite R1, R2, R3.
Qed.

Lemma issues_figmaNodeId_schema (v : Value) :
  Forall schema_message (issues figmaNodeId v).
Proof.
  rewrite issues_figmaNodeId.
  destruct v;
    try (constructor; [right; eexists; eexists; split; [|reflexivity]; cbn; auto
                      | constructor]).
  destruct (test node_id_pattern s); repeat constructor.
Qed.

Lemma issues_optional_schema (t : ZodType) (v : Value) :
  t = z_string \/ t = z_number \/ t = z_array figmaNodeId ->
  Forall schema_message (issues (optional t) v).
Proof.
  assert (T : forall expected w,
             In expected ["string"; "number"; "array"] ->
             Forall schema_message [invalid_type_message expected w]).
  { intros expected w I. constructor; [|constructor]. right. eauto. }
  intros [-> | [-> | ->]]; destruct v as [| | | | |elems|props];
    try (cbn; constructor; fail);
    try (apply T; cbn; auto; fail).
  change (Forall schema_message (flat_map (issues figmaNodeId) elems)).
  induction elems as [|e elems IH]; cbn [flat_map]; [constructor|].
  apply Forall_app. split; [apply issues_figmaNodeId_schema | exact IH].
Qed.

(** X5.  A message [validateRpc] returns is a message of the schemas: the
    colon-format message, or zod's message for a string, a number or an
    array of the wrong kind. *)
Theorem validateRpc_returns_schema_messages_only
    (tool nodeIds params : Value) (m : string) :
  validateRpc tool nodeIds params = Return (Some m) -> schema_message m.
Proof.
  rewrite validateRpc_cases.
  destruct (ToPropertyKey tool) as [name|e]; [cbn [bind] | discriminate].
  rewrite validateRpc_get_node, validateRpc_get_design_context,
    validateRpc_get_screenshot.
  destruct (name =? "get_node").
  { intros E. apply Return_inj, first_issue_in in E.
    pose proof (issues_figmaNodeId_schema (optional_first nodeIds)) as F.
    rewrite Forall_forall in F. now apply F. }
  destruct (name =? "get_design_context").
  { intros E. apply Return_inj, first_issue_in in E.
    pose proof (issues_optional_schema z_number (prop "depth" (spread params))
                  (or_intror (or_introl eq_refl))) as F.
    rewrite Forall_forall in F. now apply F. }
  destruct (name =? "get_screenshot").
  { intros E. apply Return_inj, first_issue_in in E.
    apply in_app_or in E as [E|E]; [|apply in_app_or in E as [E|E]].
    - pose proof (issues_optional_schema (z_array figmaNodeId)
                    (effective_nodeIds nodeIds params)
                    (or_intror (or_intror eq_refl))) as F.
      rewrite Forall_forall in F. now apply F.
    - pose proof (issues_optional_schema z_string (prop "format" (spread params))
                    (or_introl eq_refl)) as F.
      rewrite Forall_forall in F. now apply F.
    - pose proof (issues_optional_schema z_number (prop "scale" (spread params))
                    (or_intror (or_introl eq_refl))) as F.
      rewrite Forall_forall in F. now apply F. }
  destruct (existsb (String.eqb name) Object_prototype_keys); discriminate.
Qed.

Lemma first_issue_app_left (l1 l2 : list string) :
  l1 <> [] -> first_issue (l1 ++ l2)%list = first_issue l1.
Proof. destruct l1; [contradiction | reflexivity]. Qed.

(** X6.  [get_screenshot] reports in the order of its schema.  A bad
    element of the list wins over whatever is wrong with [format] and
    [scale]: the message is the first issue of the list.  With a good list,
    a [format] that is no string wins over [scale]. *)
Theorem get_screenshot_reports_in_schema_order (nodeIds params : Value) :
  (forall elems,
     effective_nodeIds nodeIds params = VArray elems ->
     ~ Forall is_node_id elems ->
     validateRpc (VString "get_screenshot") nodeIds params
     = Return (first_issue (flat_map (issues figmaNodeId) elems)))
  /\
  (effective_nodeIds nodeIds params = VUndefined
   \/ (exists elems, effective_nodeIds nodeIds params = VArray elems
                     /\ Forall is_node_id elems) ->
   prop "format" (spread params) <> VUndefined ->
   (forall s, prop "format" (spread params) <> VString s) ->
   validateRpc (VString "get_screenshot") nodeIds params
   = Return (Some (invalid_type_message "string" (prop "format" (spread params))))).
Proof.
  rewrite validateRpc_get_screenshot. split.
  - intros elems -> N.
    change (issues (optional (z_array figmaNodeId)) (VArray elems))
      with (flat_map (issues figmaNodeId) elems).
    rewrite first_issue_app_left; [reflexivity|].
    intros E. now apply N, issues_node_ids_nil.
  - intros Ok Nu Ns.
    assert (E : issues (optional (z_array figmaNodeId))
                  (effective_nodeIds nodeIds params) = []).
    { destruct Ok as [-> | [elems [-> F]]]; [reflexivity|]. now apply issues_node_ids_nil. }
    rewrite E. cbn [app].
    destruct (prop "format" (spread params)); try reflexivity.
    + contradiction.
    + now destruct (Ns s).
Qed.

Lemma lookup_app {A : Type} (k : string) (l1 l2 : list (string * A)) :
  lookup k (l1 ++ l2)%list
  = match lookup k l2 with
    | Some a => Some a
    | None => lookup k l1
    end.
Proof.
  induction l1 as [|[k1 a1] l1 IH]; cbn [app lookup].
  - now destruct (lookup k l2).
  - rewrite IH. destruct (lookup k l2); [reflexivity|].
    reflexivity.
Qed.

Lemma lookup_insert_other {A : Type} (k k' : string) (a : A)
    (l1 l2 : list (string * A)) :
  k' <> k -> lookup k (l1 ++ (k', a) :: l2)%list = lookup k (l1 ++ l2)%list.
Proof.
  intros N. rewrite !lookup_app. cbn [lookup].
  destruct (lookup k l2); [reflexivity|].
  now destruct (String.eqb_spec k' k).
Qed.

(** X7.  Keys of [params] that the schema does not name are ignored: with
    or without such a key, wherever it stands among the properties, the
    result of validation is the same. *)
Theorem validation_ignores_unknown_keys
    (k : string) (v nodeIds : Value) (before after : list (string * Value)) :
  (k <> "depth" ->
   validateRpc (VString "get_design_context") nodeIds
     (VObject (before ++ (k, v) :: after))
   = validateRpc (VString "get_design_context") nodeIds
       (VObject (before ++ after)))
  /\
  (~ In k ["nodeIds"; "format"; "scale"] ->
   validateRpc (VString "get_screenshot") nodeIds
     (VObject (before ++ (k, v) :: after))
   = validateRpc (VString "get_screenshot") nodeIds
       (VObject (before ++ after))).
Proof.
  split.
  - intros N. rewrite !validateRpc_get_design_context.
    unfold prop. cbn [spread]. now rewrite lookup_insert_other.
  - intros N. rewrite !validateRpc_get_screenshot.
    unfold prop, effective_nodeIds. cbn [spread].
    rewrite !lookup_insert_other; [reflexivity | | |];
      intros ->; apply N; cbn; auto.
Qed.

Lemma decimal_is_no_name (n : N) (c : ascii) (rest : string) :
  is_digit c = false -> decimal n <> String c rest.
Proof.
  intros D. unfold decimal.
  destruct (N.to_uint n); cbn; try discriminate;
    intros [= <- _]; discriminate D.
Qed.

Lemma lookup_indexed_name {A : Type} (c : ascii) (rest : string) (i : N) (l : list A) :
  is_digit c = false -> lookup (String c rest) (indexed i l) = None.
Proof.
  intros D. revert i. induction l as [|a l IH]; intros i; cbn [indexed lookup];
    [reflexivity|].
  rewrite IH. destruct (String.eqb_spec (decimal i) (String c rest)) as [E|]; [|reflexivity].
  now apply decimal_is_no_name in E.
Qed.

Lemma lookup_spread_name (c : ascii) (rest : string) (params : Value) :
  is_digit c = false ->
  (forall props, params <> VObject props) ->
  lookup (String c rest) (spread params) = None.
Proof.
  intros D N. destruct params; cbn [spread]; try reflexivity.
  - now apply lookup_indexed_name.
  - now apply lookup_indexed_name.
  - now destruct (N props).
Qed.

(** X8.  A [params] that is no object ([null], a boolean, a number, a
    string, an array) brings no field: [get_design_context] passes, and
    [get_screenshot] is validated as if [params] were absent.  (The spread
    of a string or an array has only index keys.) *)
Theorem params_that_is_no_object_carries_no_field (nodeIds params : Value) :
  (forall props, params <> VObject props) ->
  validateRpc (VString "get_design_context") nodeIds params = Return None
  /\ validateRpc (VString "get_screenshot") nodeIds params
     = validateRpc (VString "get_screenshot") nodeIds VUndefined.
Proof.
  intros N. rewrite validateRpc_get_design_context, !validateRpc_get_screenshot.
  unfold prop, effective_nodeIds.
  rewrite !(lookup_spread_name _ _ params) by (reflexivity || exact N).
  split; reflexivity.
Qed.

(** X9.  The list of [get_screenshot] is optional but not nullable: a
    value there that is neither [undefined] nor an array, [null] included,
    gets zod's message for a value that is no array. *)
Theorem get_screenshot_wants_a_list (nodeIds params : Value) :
  effective_nodeIds nodeIds params <> VUndefined ->
  (forall elems, effective_nodeIds nodeIds params <> VArray elems) ->
  validateRpc (VString "get_screenshot") nodeIds params
  = Return (Some (invalid_type_message "array" (effective_nodeIds nodeIds params))).
Proof.
  intros Nu Na. rewrite validateRpc_get_screenshot.
  destruct (effective_nodeIds nodeIds params); try reflexivity.
  - contradiction.
  - now destruct (Na elems).
Qed.

End MoreValidator.

(** ** The front door *)

Section MoreFrontDoor.

Context {St : Type} {bridge : Bridge St} {messages : ZodMessages}.

Lemma request_fields_throws (request : Body) (e : Thrown) :
  request_fields request = Throw e -> exists name message, e = ErrorObject name message.
Proof.
  unfold request_fields.
  destruct request as [rpcReq|syntax_error]; cbn [bind JSON_parse].
  - destruct rpcReq; cbn; intros [= <-]; unfold TypeError; eauto.
  - intros [= <-]. unfold SyntaxError. eauto.
Qed.

(** X10.  A request of which the fields cannot be read is answered 200
    with the message of the exception as [error]; the Bridge is not called
    and its state stays. *)
Theorem unreadable_request_is_answered_without_bridge
    (request : Body) (st : St) (e : Thrown) :
  request_fields request = Throw e ->
  exists name message,
    e = ErrorObject name message
    /\ handleRPC request st
       = (Return tt, st, json_response 200 (VObject [("error", VString message)])).
Proof.
  intros F. destruct (request_fields_throws request e F) as [name [message ->]].
  exists name, message. split; [reflexivity|].
  rewrite handleRPC_cases, F. reflexivity.
Qed.

(** The requests of which the fields cannot be read: a text that is not
    JSON, and [null] (with [undefined], which no JSON text gives). *)
Lemma request_is_unreadable_exactly_when (request : Body) :
  (exists e, request_fields request = Throw e)
  <-> (exists syntax_error, request = NotJson syntax_error)
      \/ request = JsonText VNull \/ request = JsonText VUndefined.
Proof.
  split.
  - intros [e F]. destruct request as [rpcReq|syntax_error]; [|eauto].
    destruct rpcReq; auto; cbn in F; discriminate.
  - intros [[m ->] | [-> | ->]]; cbn; eauto.
Qed.

Lemma caught_shape (e : Thrown) (st : St) (before : list Effect) :
  exists r rest,
    caught e st before = (r, st, before ++ rest)%list
    /\ ((r = Return tt /\ exists body, rest = json_response 200 body)
        \/ ((exists e', r = Throw e') /\ rest = [])).
Proof.
  unfold caught. destruct (message_of e) as [message|e'].
  - eexists. eexists. split; [reflexivity|]. left. eauto.
  - exists (Throw e'), []. rewrite app_nil_r. split; [reflexivity|]. right. eauto.
Qed.

(** The run of the handler on a request that validation lets through. *)
Lemma forwarding_run
    (request : Body) (st : St) (tool nodeIds params : Value) :
  request_fields request = Return (tool, nodeIds, params) ->
  validateRpc tool nodeIds params = Return None ->
  exists r rest,
    handleRPC request st
    = (r, snd (sendWithParams tool nodeIds params st),
       BridgeSend tool nodeIds params :: rest)
    /\ no_Bridge_effect rest.
Proof.
  intros F V. rewrite handleRPC_cases, F, V. cbn [of_nullable ToBoolean]. cbv zeta.
  assert (C : forall e (st1 : St),
             exists r rest,
               caught e st1 [BridgeSend tool nodeIds params]
               = (r, st1, BridgeSend tool nodeIds params :: rest)
               /\ no_Bridge_effect rest).
  { intros e st1. destruct (caught_shape e st1 [BridgeSend tool nodeIds params])
      as (r & rest & -> & [[_ [body ->]] | [_ ->]]);
      exists r; eexists; split; reflexivity. }
  destruct (sendWithParams tool nodeIds params st) as [[resp|e] st1]; cbn [snd];
    [|apply C].
  destruct (member resp "error") as [error|e]; [|apply C].
  destruct (ToBoolean error).
  { eexists. eexists. split; reflexivity. }
  destruct (member resp "data") as [data|e]; [|apply C].
  eexists. eexists. split; reflexivity.
Qed.

(** X11.  A request that passes validation is forwarded once: the first
    effect is the call of [sendWithParams] with the three fields as they
    were read, no other effect touches the Bridge, and the state of the
    Bridge afterwards is the one this call left. *)
Theorem valid_request_is_forwarded_once
    (request : Body) (st : St) (tool nodeIds params : Value) :
  request_fields request = Return (tool, nodeIds, params) ->
  validateRpc tool nodeIds params = Return None ->
  exists r rest,
    handleRPC request st
    = (r, snd (sendWithParams tool nodeIds params st),
       BridgeSend tool nodeIds params :: rest)
    /\ no_Bridge_effect rest.
Proof.
  intros F V. now apply forwarding_run.
Qed.

(** X12.  When the Bridge answers a valid request with an object, the
    response is 200 and follows the object's [error]: if it is truthy the
    body is [{error}] alone, whatever [data] is; otherwise the body is
    [{data}]. *)
Theorem response_follows_the_bridge
    (request : Body) (st st' : St) (tool nodeIds params : Value)
    (props : list (string * Value)) :
  request_fields request = Return (tool, nodeIds, params) ->
  validateRpc tool nodeIds params = Return None ->
  sendWithParams tool nodeIds params st = (Return (VObject props), st') ->
  handleRPC request st
  = (Return tt, st',
     BridgeSend tool nodeIds params
     :: json_response 200
          (if ToBoolean (prop "error" props)
           then VObject [("error", prop "error" props)]
           else VObject [("data", prop "data" props)])).
Proof.
  intros F V B. rewrite handleRPC_cases, F, V. cbn [of_nullable ToBoolean]. cbv zeta.
  rewrite B. cbn [member].
  now destruct (ToBoolean (prop "error" props)).
Qed.

(** X13.  When the Bridge rejects a valid request with an [Error], the
    response is 200 with the error's message as [error]. *)
Theorem bridge_rejection_is_answered_200
    (request : Body) (st st' : St) (tool nodeIds params : Value)
    (name message : string) :
  request_fields request = Return (tool, nodeIds, params) ->
  validateRpc tool nodeIds params = Return None ->
  sendWithParams tool nodeIds params st = (Throw (ErrorObject name message), st') ->
  handleRPC request st
  = (Return tt, st',
     BridgeSend tool nodeIds params
     :: json_response 200 (VObject [("error", VString message)])).
Proof.
  intros F V B. rewrite handleRPC_cases, F, V. cbn [of_nullable ToBoolean]. cbv zeta.
  rewrite B. reflexivity.
Qed.

(** X14.  A JSON body that is no object and not [null] (a boolean, a
    number, a string, an array) has none of the three fields: validation
    passes for the tool [undefined], and the Bridge is called with
    [undefined] three times. *)
Theorem body_without_fields_is_forwarded_undefined (v : Value) (st : St) :
  v <> VUndefined -> v <> VNull -> (forall props, v <> VObject props) ->
  exists r rest,
    handleRPC (JsonText v) st
    = (r, snd (sendWithParams VUndefined VUndefined VUndefined st),
       BridgeSend VUndefined VUndefined VUndefined :: rest)
    /\ no_Bridge_effect rest.
Proof.
  intros Nu Nn No.
  apply forwarding_run; [|reflexivity].
  destruct v; try reflexivity; try contradiction. now destruct (No props).
Qed.

(** X15.  Of the request listener's routes only POST /rpc can reach the
    Bridge.  GET /ping answers 200 with the status and the version; every
    other pair of target and method answers 404 "Not found"; neither reads
    the body, calls the Bridge or changes its state. *)
Theorem only_post_rpc_reaches_the_bridge
    (VERSION url method : string) (request : Body) (st : St) :
  (url = "/ping" /\ method = "GET" ->
   onRequest VERSION url method request st
   = (Return tt, st,
      [ WriteHead 200 json_headers;
        End (Json (Some (VObject [ ("status", VString "ok");
                                   ("version", VString VERSION) ]))) ]))
  /\
  (~ (url = "/ping" /\ method = "GET") ->
   ~ (url = "/rpc" /\ method = "POST") ->
   onRequest VERSION url method request st
   = (Return tt, st, [ WriteHead 404 []; End (Text "Not found") ])).
Proof.
  unfold onRequest. split.
  - intros [-> ->]. reflexivity.
  - intros Np Nr.
    assert (P : (url =? "/ping") && (method =? "GET") = false).
    { destruct (String.eqb_spec url "/ping"); [|reflexivity].
      destruct (String.eqb_spec method "GET"); [|reflexivity]. now destruct Np. }
    assert (R : (url =? "/rpc") && (method =? "POST") = false).
    { destruct (String.eqb_spec url "/rpc"); [|reflexivity].
      destruct (String.eqb_spec method "POST"); [|reflexivity]. now destruct Nr. }
    rewrite P, R. reflexivity.
Qed.

(** X16.  [handleRPC] writes one response or none: its effects are at most
    one call of the Bridge followed by one JSON response, and the response
    is missing only when the handler ends with an exception (the [catch]
    itself failed), in which case nothing has been written at all. *)
Theorem handleRPC_answers_once_or_not_at_all (request : Body) (st : St) :
  exists r st' calls response,
    handleRPC request st = (r, st', calls ++ response)%list
    /\ (calls = [] \/ exists tool nodeIds params, calls = [BridgeSend tool nodeIds params])
    /\ ((r = Return tt /\ exists status body, response = json_response status body)
        \/ ((exists e, r = Throw e) /\ response = [])).
Proof.
  rewrite handleRPC_cases.
  assert (C : forall e (st1 : St) calls,
             (calls = [] \/ exists t n p, calls = [BridgeSend t n p]) ->
             exists r st' calls' response,
               caught e st1 calls = (r, st', calls' ++ response)%list
               /\ (calls' = [] \/ exists t n p, calls' = [BridgeSend t n p])
               /\ ((r = Return tt /\ exists status body, response = json_response status body)
                   \/ ((exists e', r = Throw e') /\ response = []))).
  { intros e st1 calls Hc.
    destruct (caught_shape e st1 calls) as (r & rest & -> & [[-> [body ->]] | [[e' ->] ->]]).
    - exists (Return tt), st1, calls, (json_response 200 body).
      split; [reflexivity|]. split; [exact Hc|]. left. eauto.
    - exists (Throw e'), st1, calls, []. split; [reflexivity|]. split; [exact Hc|].
      right. eauto. }
  destruct (request_fields request) as [[[tool nodeIds] params]|e]; [|apply C; auto].
  destruct (validateRpc tool nodeIds params) as [verdict|e]; [|apply C; auto].
  destruct (ToBoolean (of_nullable verdict)).
  { exists (Return tt), st, [],
      (json_response 400 (VObject [("error", of_nullable verdict)])).
    split; [reflexivity|]. split; [auto|]. left. eauto. }
  cbv zeta.
  destruct (sendWithParams tool nodeIds params st) as [[resp|e] st1]; [|apply C; eauto].
  destruct (member resp "error") as [error|e]; [|apply C; eauto].
  destruct (ToBoolean error).
  { exists (Return tt), st1, [BridgeSend tool nodeIds params],
      (json_response 200 (VObject [("error", error)])).
    split; [reflexivity|]. split; [eauto|]. left. eauto. }
  destruct (member resp "data") as [data|e]; [|apply C; eauto].
  exists (Return tt), st1, [BridgeSend tool nodeIds params],
    (json_response 200 (VObject [("data", data)])).
  split; [reflexivity|]. split; [eauto|]. left. eauto.
Qed.

End MoreFrontDoor.

(** ** Startup and shutdown *)


Lemma port_stays (events : list ServerEvent) (s : Startup) :
  port (leader (run_server_events events s)) = port (leader s).
Proof.
  revert s. induction events as [|ev events IH]; intros s; [reflexivity|].
  cbn [run_server_events fold_left]. fold (run_server_events events (on_server_event ev s)).
  rewrite IH. destruct ev; cbn; [now destruct (error_listener s) | reflexivity].
Qed.

Lemma server_after_events (events : list ServerEvent) (s : Startup) :
  server (leader (run_server_events events s))
  = if existsb is_ListeningEvent events
    then Some (HttpServer (port (leader s)))
    else server (leader s).
Proof.
  revert s. induction events as [|ev events IH]; intros s; [reflexivity|].
  cbn [run_server_events fold_left existsb].
  fold (run_server_events events (on_server_event ev s)).
  rewrite IH. destruct ev.
  - cbn [orb]. assert (E : leader (on_server_event (ErrorEvent code message) s) = leader s)
      by (cbn; now destruct (error_listener s)).
    now rewrite E.
  - cbn [orb on_server_event leader port server].
    now destruct (existsb _ events).
Qed.

(** X18.  Over any events after [start()], the leader's port stays, and
    its [server] field is set exactly when a [listening] event has
    occurred: to the server on that port if one has, and left as it was if
    none has. *)
Theorem server_is_recorded_exactly_on_listening
    (l : Leader) (events : list ServerEvent) :
  let after := leader (run_server_events events (start l)) in
  port after = port l
  /\ (In ListeningEvent events -> server after = Some (HttpServer (port l)))
  /\ (~ In ListeningEvent events -> server after = server l).
Proof.
  cbv zeta. split; [apply port_stays|].
  rewrite server_after_events. cbn [start leader].
  destruct (existsb _ events) eqn:E.
  - split; [reflexivity|]. intros N. exfalso. apply N.
    apply existsb_exists in E as [ev [I L]]. now destruct ev.
  - split; [|reflexivity]. intros I. exfalso.
    assert (existsb is_ListeningEvent events
            = true); [|congruence].
    apply existsb_exists. now exists ListeningEvent.
Qed.

(** X19.  An [error] event with another code than [EADDRINUSE] rejects
    the promise of [start()] with the error as it is; the leader is
    unchanged and [listen] is not called again. *)
Theorem start_passes_other_errors_on (l : Leader) (code message : string) :
  code <> "EADDRINUSE" ->
  let failed := on_server_event (ErrorEvent code message) (start l) in
  promise failed = Rejected (ErrorObject "Error" message)
  /\ leader failed = l
  /\ trace failed = [Listen (port l)].
Proof.
  intros N. cbv zeta. cbn.
  destruct (String.eqb_spec code "EADDRINUSE"); [contradiction|]. auto.
Qed.

Section Stop.

Context {St : Type} {bridge : Bridge St}.

(** X20.  [stop()] closes the Bridge, closes the server if there is one
    and forgets it; the port stays.  A second [stop()] closes the Bridge
    again and lets the leader be. *)
Theorem stop_closes_everything_once (l : Leader) (st : St) :
  let '(l1, st1, effects1) := stop l st in
  server l1 = None
  /\ port l1 = port l
  /\ st1 = close st
  /\ effects1 = BridgeClose :: match server l with
                                | Some _ => [ServerClose]
                                | None => []
                                end
  /\ stop l1 st1 = (l1, close st1, [BridgeClose]).
Proof.
  unfold stop. destruct l as [p [srv|]]; cbn; auto 6.
Qed.

(** X21.  Whatever happened since [start()] on a new leader, [stop()]
    leaves the leader as new: its port, and no server. *)
Theorem stop_undoes_start (p : N) (st : St) (events : list ServerEvent) :
  fst (fst (stop (leader (run_server_events events (start (new_Leader p)))) st))
  = new_Leader p.
Proof.
  pose proof (port_stays events (start (new_Leader p))) as P.
  cbn [start leader new_Leader port] in P.
  unfold stop.
  destruct (leader (run_server_events events (start (new_Leader p)))) as [p' srv].
  cbn in P. subst p'. now destruct srv.
Qed.

End Stop.

(** ** The further properties at work *)

(** No list, and a number where the node id should be. *)
Lemma get_node_requires_a_string_witness :
  validateRpc (messages:=zod3) (VString "get_node") (VArray []) VUndefined
  = Return (Some "Required")
  /\ validateRpc (messages:=zod3) (VString "get_node")
       (VArray [VNumber "4029"; VString "1:2"]) VUndefined
     = Return (Some "Expected string, received number").
Proof.
  split.
  - apply (proj1 (get_node_requires_a_string (messages:=zod3) (VArray []) VUndefined)).
    right. right. reflexivity.
  - apply (proj2 (get_node_requires_a_string (messages:=zod3)
                    (VArray [VNumber "4029"; VString "1:2"]) VUndefined)
             (VNumber "4029") [VString "1:2"] eq_refl).
    intros s. discriminate.
Defined.

(** A tool of tomorrow passes; [valueOf] throws. *)
Lemma validateRpc_throws_witness :
  validateRpc (messages:=zod3) (VString "list_pages") (VArray [VString "x"]) VNull
  = Return None
  /\ exists e,
       validateRpc (messages:=zod3) (VString "valueOf") (VArray [VString "x"]) VNull
       = Throw e.
Proof.
  split.
  - apply (proj2 (validateRpc_throws_exactly_on_inherited_names (messages:=zod3)
                    "list_pages" (VArray [VString "x"]) VNull)).
    + cbn. intros [E|[E|[E|[]]]]; discriminate.
    + cbn. intuition discriminate.
  - apply (proj1 (proj1 (validateRpc_throws_exactly_on_inherited_names (messages:=zod3)
                           "valueOf" (VArray [VString "x"]) VNull))).
    cbn. auto 12.
Defined.

Lemma validateRpc_schema_message_witness :
  schema_message (messages:=zod3) "Expected number, received string".
Proof.
  apply (validateRpc_returns_schema_messages_only (messages:=zod3)
           (VString "get_design_context") VUndefined
           (VObject [("depth", VString "2")])).
  reflexivity.
Defined.

Lemma get_screenshot_order_witness :
  validateRpc (messages:=zod3) (VString "get_screenshot")
    (VArray [VString "1:2"; VString "x"]) (VObject [("format", VNumber "5")])
  = Return (Some colon_message)
  /\ validateRpc (messages:=zod3) (VString "get_screenshot")
       (VArray [VString "1:2"])
       (VObject [("format", VNumber "5"); ("scale", VString "a")])
     = Return (Some "Expected string, received number").
Proof.
  split.
  - apply (proj1 (get_screenshot_reports_in_schema_order (messages:=zod3)
                    (VArray [VString "1:2"; VString "x"])
                    (VObject [("format", VNumber "5")]))
             [VString "1:2"; VString "x"] eq_refl).
    intros F. inversion F as [|? ? _ F']. inversion F' as [|? ? [s [E C]] _].
    injection E as <-. apply node_id_pattern_spec in C. discriminate.
  - apply (proj2 (get_screenshot_reports_in_schema_order (messages:=zod3)
                    (VArray [VString "1:2"])
                    (VObject [("format", VNumber "5"); ("scale", VString "a")]))).
    + right. exists [VString "1:2"]. split; [reflexivity|].
      constructor; [|constructor]. exists "1:2". split; [reflexivity|].
      apply node_id_pattern_spec. reflexivity.
    + discriminate.
    + intros s. discriminate.
Defined.

Lemma unknown_keys_witness :
  validateRpc (messages:=zod3) (VString "get_design_context") VUndefined
    (VObject [("depth", VNumber "3"); ("verbose", VBool true)])
  = validateRpc (messages:=zod3) (VString "get_design_context") VUndefined
      (VObject [("depth", VNumber "3")])
  /\ validateRpc (messages:=zod3) (VString "get_screenshot") VUndefined
       (VObject [("quality", VNumber "90"); ("scale", VString "big")])
     = validateRpc (messages:=zod3) (VString "get_screenshot") VUndefined
         (VObject [("scale", VString "big")]).
Proof.
  split.
  - apply (proj1 (validation_ignores_unknown_keys (messages:=zod3)
                    "verbose" (VBool true) VUndefined [("depth", VNumber "3")] [])).
    discriminate.
  - apply (proj2 (validation_ignores_unknown_keys (messages:=zod3)
                    "quality" (VNumber "90") VUndefined [] [("scale", VString "big")])).
    cbn. intuition discriminate.
Defined.

Lemma params_no_object_witness :
  validateRpc (messages:=zod3) (VString "get_design_context") VUndefined
    (VString "depth") = Return None
  /\ validateRpc (messages:=zod3) (VString "get_screenshot") (VArray [VString "x"])
       (VArray [VString "nodeIds"])
     = validateRpc (messages:=zod3) (VString "get_screenshot") (VArray [VString "x"])
         VUndefined.
Proof.
  split.
  - apply (proj1 (params_that_is_no_object_carries_no_field (messages:=zod3)
                    VUndefined (VString "depth") (fun props => ltac:(discriminate)))).
  - apply (proj2 (params_that_is_no_object_carries_no_field (messages:=zod3)
                    (VArray [VString "x"]) (VArray [VString "nodeIds"])
                    (fun props => ltac:(discriminate)))).
Defined.

Lemma get_screenshot_null_list_witness :
  validateRpc (messages:=zod3) (VString "get_screenshot") VNull VUndefined
  = Return (Some "Expected array, received null").
Proof.
  apply (get_screenshot_wants_a_list (messages:=zod3) VNull VUndefined).
  - discriminate.
  - intros elems. discriminate.
Defined.

Lemma unreadable_request_witness :
  exists name message,
    SyntaxError "Unexpected end of JSON input" = ErrorObject name message
    /\ handleRPC (bridge:=scripted) (messages:=zod3)
         (NotJson "Unexpected end of JSON input") (answering [VNull])
       = (Return tt, answering [VNull],
          json_response 200 (VObject [("error", VString message)])).
Proof.
  apply (unreadable_request_is_answered_without_bridge
           (bridge:=scripted) (messages:=zod3)
           (NotJson "Unexpected end of JSON input") (answering [VNull])).
  reflexivity.
Defined.

Lemma forwarded_once_witness :
  exists r rest,
    handleRPC (bridge:=scripted) (messages:=zod3) screenshot_request
      (answering [VNull; VNull])
    = (r, answering [VNull],
       BridgeSend (VString "get_screenshot") (VArray [VString "4029:1"])
         (VObject [("scale", VNumber "2")]) :: rest)
    /\ no_Bridge_effect rest.
Proof.
  apply (valid_request_is_forwarded_once (bridge:=scripted) (messages:=zod3)
           screenshot_request (answering [VNull; VNull])); reflexivity.
Defined.

Lemma response_follows_witness :
  handleRPC (bridge:=scripted) (messages:=zod3) screenshot_request
    (answering [VObject [("data", VString "png"); ("error", VString "export failed")]])
  = (Return tt, answering [],
     BridgeSend (VString "get_screenshot") (VArray [VString "4029:1"])
       (VObject [("scale", VNumber "2")])
     :: json_response 200 (VObject [("error", VString "export failed")])).
Proof.
  apply (response_follows_the_bridge (bridge:=scripted) (messages:=zod3)
           screenshot_request
           (answering [VObject [("data", VString "png");
                                ("error", VString "export failed")]])
           (answering []) _ _ _
           [("data", VString "png"); ("error", VString "export failed")]);
    reflexivity.
Defined.

Lemma bridge_rejection_witness :
  handleRPC (bridge:=scripted) (messages:=zod3) screenshot_request disconnected
  = (Return tt, disconnected,
     BridgeSend (VString "get_screenshot") (VArray [VString "4029:1"])
       (VObject [("scale", VNumber "2")])
     :: json_response 200 (VObject [("error", VString "not connected")])).
Proof.
  apply (bridge_rejection_is_answered_200 (bridge:=scripted) (messages:=zod3)
           screenshot_request disconnected disconnected _ _ _ "Error" "not connected");
    reflexivity.
Defined.

Lemma body_without_fields_witness :
  exists r rest,
    handleRPC (bridge:=scripted) (messages:=zod3)
      (JsonText (VArray [VString "get_node"])) disconnected
    = (r, disconnected, BridgeSend VUndefined VUndefined VUndefined :: rest)
    /\ no_Bridge_effect rest.
Proof.
  apply (body_without_fields_is_forwarded_undefined (bridge:=scripted) (messages:=zod3)
           (VArray [VString "get_node"]) disconnected);
    discriminate.
Defined.

Lemma routes_witness :
  onRequest (bridge:=scripted) (messages:=zod3) "1.2.0" "/ping" "GET"
    bad_id_request disconnected
  = (Return tt, disconnected,
     [ WriteHead 200 json_headers;
       End (Json (Some (VObject [ ("status", VString "ok");
                                  ("version", VString "1.2.0") ]))) ])
  /\ onRequest (bridge:=scripted) (messages:=zod3) "1.2.0" "/rpc" "GET"
       bad_id_request disconnected
     = (Return tt, disconnected, [ WriteHead 404 []; End (Text "Not found") ]).
Proof.
  split.
  - apply (proj1 (only_post_rpc_reaches_the_bridge (bridge:=scripted) (messages:=zod3)
                    "1.2.0" "/ping" "GET" bad_id_request disconnected)).
    split; reflexivity.
  - apply (proj2 (only_post_rpc_reaches_the_bridge (bridge:=scripted) (messages:=zod3)
                    "1.2.0" "/rpc" "GET" bad_id_request disconnected)).
    + intros [E _]. discriminate.
    + intros [_ E]. discriminate.
Defined.

Lemma server_recorded_witness :
  server (leader (run_server_events [ListeningEvent; ErrorEvent "ECONNRESET" "reset"]
                    (start (new_Leader 1994))))
  = Some (HttpServer 1994)
  /\ server (leader (run_server_events [ErrorEvent "EADDRINUSE" "in use"]
                       (start (new_Leader 1994))))
     = None.
Proof.
  split.
  - apply (proj1 (proj2 (server_is_recorded_exactly_on_listening (new_Leader 1994)
                           [ListeningEvent; ErrorEvent "ECONNRESET" "reset"]))).
    cbn. auto.
  - apply (proj2 (proj2 (server_is_recorded_exactly_on_listening (new_Leader 1994)
                           [ErrorEvent "EADDRINUSE" "in use"]))).
    cbn. intros [E|[]]. discriminate.
Defined.

Lemma other_error_witness :
  promise (on_server_event (ErrorEvent "EACCES" "permission denied")
             (start (new_Leader 80)))
  = Rejected (ErrorObject "Error" "permission denied")
  /\ leader (on_server_event (ErrorEvent "EACCES" "permission denied")
               (start (new_Leader 80))) = new_Leader 80
  /\ trace (on_server_event (ErrorEvent "EACCES" "permission denied")
              (start (new_Leader 80))) = [Listen 80].
Proof.
  apply (start_passes_other_errors_on (new_Leader 80) "EACCES" "permission denied").
  discriminate.
Defined.
